(** * dbsake: the binary [.frm] decoder and the [mysqldump] splitter

    A shallow embedding of [dbsake/mysqlfrm/binaryfrm.py] and of
    [dbsake/mysqldumpsplit/__init__.py].  The sources are Python 2: a [str]
    is a sequence of 8-bit characters, which is what [string] is here, and
    an [int] is unbounded, which is what [Z] is here. *)

From Stdlib Require Import ZArith String Ascii List Lia DecimalString.
From stdpp Require Import gmap strings list.

Local Open Scope string_scope.
Local Open Scope list_scope.
Local Open Scope Z_scope.

(** ** Exceptions and the error monad *)

(** The exceptions the two modules can raise or let through. *)
Inductive exn : Type :=
  | IOError_EINVAL      (* raised by [parse] on a bad magic number *)
  | IOError_ENOENT      (* [open] of a file in a directory that does not exist *)
  | ReaderError         (* a [ByteReader] read outside the buffer *)
  | ValueError          (* a value outside an enumeration of [constants] *)
  | LookupError         (* [charsets.lookup] or a codec lookup failed *)
  | UnicodeDecodeError
  | IndexError
  | NameError           (* a local variable read before assignment *)
  | TypeError
  | StopIteration
  | CollaboratorError.  (* anything else raised by a module not modelled *)

Inductive result (A : Type) : Type :=
  | Ok (a : A)
  | Raise (e : exn).
Arguments Ok {A} a.
Arguments Raise {A} e.

#[global] Instance result_ret : MRet result := fun A a => Ok a.
#[global] Instance result_bind : MBind result := fun A B k m =>
  match m with
  | Ok a => k a
  | Raise e => Raise e
  end.

(** A [for] loop or comprehension that builds a list and stops at the first
    exception. *)
Fixpoint traverse {A B} (f : A -> result B) (l : list A) : result (list B) :=
  match l with
  | [] => Ok []
  | a :: l' => b ← f a; bs ← traverse f l'; Ok (b :: bs)
  end.

(** ** Python built-ins used by the sources *)
Module Py.

(** [str(n)] and ['{0}'.format(n)] for an integer. *)
Definition str_of_Z (z : Z) : string := NilZero.string_of_int (Z.to_int z).

(** [sep.join(l)]. *)
Definition join (sep : string) (l : list string) : string := String.concat sep l.

Definition len (s : string) : Z := Z.of_nat (String.length s).

(** A slice bound as Python normalises it: negative bounds count from the
    end, and every bound is clipped to [0 .. n]. *)
Definition clip (n i : Z) : Z :=
  if i <? 0 then Z.max 0 (n + i) else Z.min i n.

(** [s[lo:hi]]. *)
Definition slice (s : string) (lo hi : Z) : string :=
  let n := len s in
  let lo' := clip n lo in
  let hi' := clip n hi in
  substring (Z.to_nat lo') (Z.to_nat (hi' - lo')) s.

(** [s[lo:]]. *)
Definition slice_from (s : string) (lo : Z) : string := slice s lo (len s).

(** [l[i]] on a sequence: a negative index counts from the end, and an
    index outside the sequence raises [IndexError]. *)
Definition index {A} (l : list A) (i : Z) : result A :=
  let n := Z.of_nat (length l) in
  let j := if i <? 0 then n + i else i in
  if (j <? 0) || (n <=? j) then Raise IndexError
  else match nth_error l (Z.to_nat j) with
       | Some a => Ok a
       | None => Raise IndexError
       end.

(** [s.split(sep)] for a one-character separator: always at least one
    piece. *)
Fixpoint split (sep : ascii) (s : string) : list string :=
  match s with
  | EmptyString => [EmptyString]
  | String c s' =>
      if Ascii.eqb c sep then EmptyString :: split sep s'
      else match split sep s' with
           | p :: ps => String c p :: ps
           | [] => [String c EmptyString]
           end
  end.

(** [needle in hay] on strings. *)
Fixpoint contains (needle hay : string) : bool :=
  String.prefix needle hay ||
  match hay with
  | EmptyString => false
  | String _ hay' => contains needle hay'
  end.

(** [s.replace(old, new)] for a non-empty [old]: every occurrence, left to
    right, without overlap.  [skip] counts the characters of the occurrence
    being replaced that are still to be dropped. *)
Fixpoint replace_from (old new : string) (skip : nat) (s : string) : string :=
  match s with
  | EmptyString => EmptyString
  | String c s' =>
      match skip with
      | S k => replace_from old new k s'
      | O =>
          if String.prefix old s
          then new +:+ replace_from old new (Nat.pred (String.length old)) s'
          else String c (replace_from old new O s')
      end
  end.

Definition replace (s old new : string) : string := replace_from old new O s.

(** The characters [str.split()] treats as white space. *)
Definition is_space (c : ascii) : bool :=
  let n := N_of_ascii c in
  ((9 <=? n) && (n <=? 13) || (n =? 32))%N.

Fixpoint lstrip (s : string) : string :=
  match s with
  | String c s' => if is_space c then lstrip s' else s
  | EmptyString => EmptyString
  end.

Fixpoint take_word (s : string) : string :=
  match s with
  | String c s' => if is_space c then EmptyString else String c (take_word s')
  | EmptyString => EmptyString
  end.

(** [s.split()[0]]: the first white-space separated word; [IndexError] when
    there is none. *)
Definition first_word (s : string) : result string :=
  match lstrip s with
  | EmptyString => Raise IndexError
  | w => Ok (take_word w)
  end.

Definition ends_with_slash (s : string) : bool :=
  match String.get (Nat.pred (String.length s)) s with
  | Some c => Ascii.eqb c "/"
  | None => false
  end.

(** [os.path.join(a, b)] of [posixpath]. *)
Definition path_join2 (a b : string) : string :=
  if String.prefix "/" b then b
  else if String.eqb a EmptyString || ends_with_slash a then a +:+ b
  else a +:+ "/" +:+ b.

(** [os.path.join(a, *p)]. *)
Definition path_join (a : string) (p : list string) : string :=
  fold_left path_join2 p a.

(** What follows the prefix [p] of [s]; [None] when [s] does not start
    with [p]. *)
Fixpoint after_prefix (p s : string) : option string :=
  match p with
  | EmptyString => Some s
  | String a p' =>
      match s with
      | String b s' => if Ascii.eqb a b then after_prefix p' s' else None
      | EmptyString => None
      end
  end.

(** Whether [name] is [os.path.join(d, f)] for a file name [f] without a
    slash: a file that lies in the directory [d] itself. *)
Definition inside (d name : string) : bool :=
  match after_prefix (path_join2 d EmptyString) name with
  | Some f => negb (contains "/" f)
  | None => false
  end.

(** [p[:p.rfind('/') + 1]]: the text up to and with the last slash. *)
Fixpoint head_of (p : string) : string :=
  match p with
  | EmptyString => EmptyString
  | String c p' => if contains "/" p then String c (head_of p') else EmptyString
  end.

Fixpoint all_slashes (s : string) : bool :=
  match s with
  | EmptyString => true
  | String c s' => Ascii.eqb c "/" && all_slashes s'
  end.

(** [s.rstrip('/')]. *)
Fixpoint rstrip_slashes (s : string) : string :=
  match s with
  | EmptyString => EmptyString
  | String c s' => if all_slashes s then EmptyString else String c (rstrip_slashes s')
  end.

(** [os.path.dirname(p)] of [posixpath]. *)
Definition dirname (p : string) : string :=
  let head := head_of p in
  if all_slashes head then head else rstrip_slashes head.

(** The text up to, and without, the first line feed. *)
Fixpoint line_rest (s : string) : string :=
  match s with
  | EmptyString => EmptyString
  | String c s' => if Ascii.eqb c "010" then EmptyString else String c (line_rest s')
  end.

(** [re.search] in multi-line mode for a literal [pat] followed by a group
    that runs to the end of the line: the group is what follows the
    leftmost occurrence of [pat], up to the line feed. *)
Fixpoint search_to_eol (pat s : string) : option string :=
  if String.prefix pat s
  then Some (line_rest (substring (String.length pat) (String.length s) s))
  else match s with
       | EmptyString => None
       | String _ s' => search_to_eol pat s'
       end.

(** Truth value of a string, and of an optional one ([None] is false). *)
Definition truthy (s : string) : bool := negb (String.eqb s EmptyString).
Definition truthy_opt (o : option string) : bool :=
  match o with Some s => truthy s | None => false end.

End Py.

(** ** [dbsake.mysqlfrm.binaryfrm] *)
Module Frm.

(** *** [MySQLVersion] *)
Record MySQLVersion : Type := mkVersion { major : Z; minor : Z; release : Z }.

(** [MySQLVersion.from_version_id]: [//] and [%] are floor division and its
    remainder, and [%] and [//] associate to the left. *)
Definition from_version_id (value : Z) : MySQLVersion :=
  {| major := value / 10000;
     minor := value mod 1000 / 100;
     release := value mod 100 |}.

(** [self == (0, 0, 0)]. *)
Definition is_zero_version (v : MySQLVersion) : bool :=
  (major v =? 0) && (minor v =? 0) && (release v =? 0).

(** [MySQLVersion.__str__]. *)
Definition version_str (v : MySQLVersion) : string :=
  if is_zero_version v then "< 5.0"
  else Py.join "." (map Py.str_of_Z [major v; minor v; release v]).

(** *** [util.ByteReader] *)

Inductive whence : Type := SEEK_SET | SEEK_CUR.

(** Modelled from the spec: [util.ByteReader], which is not under [src/]; a
    byte buffer with a cursor (section 4.1).  A read that would leave the
    buffer fails.  The reads at an offset leave the cursor where it is:
    [unpack_columns] reads every field of a 17-byte record from the start of
    the record and then skips 17 bytes. *)
Record ByteReader : Type := mkReader { buf : string; pos : Z }.

(** [util.ByteReader(b)]. *)
Definition reader_of (b : string) : ByteReader := {| buf := b; pos := 0 |}.

(** [getvalue()]: the whole buffer; the code only tests it for emptiness. *)
Definition getvalue (r : ByteReader) : string := buf r.

(** Whether the [n] bytes from offset [off] on lie in the buffer. *)
Definition in_buffer (r : ByteReader) (off n : Z) : bool :=
  (0 <=? off) && (0 <=? n) && (off + n <=? Py.len (buf r)).

(** [read_at(n, off)]: [n] bytes from offset [off] on; the cursor stays. *)
Definition read_at (r : ByteReader) (n off : Z) : result string :=
  if in_buffer r off n then Ok (substring (Z.to_nat off) (Z.to_nat n) (buf r))
  else Raise ReaderError.

(** [read(n)]: [n] bytes from the cursor on, and the cursor after them. *)
Definition read (r : ByteReader) (n : Z) : result (string * ByteReader) :=
  b ← read_at r n (pos r); Ok (b, {| buf := buf r; pos := pos r + n |}).

(** The cursor moved to [off], which must lie in the buffer or at its end. *)
Definition seek (r : ByteReader) (off : Z) : result ByteReader :=
  if in_buffer r off 0 then Ok {| buf := buf r; pos := off |} else Raise ReaderError.

(** [skip(n)]. *)
Definition skip (r : ByteReader) (n : Z) : result ByteReader := seek r (pos r + n).

Definition tell (r : ByteReader) : Z := pos r.

(** Little-endian value of a byte string. *)
Fixpoint le_value (b : string) : Z :=
  match b with
  | EmptyString => 0
  | String c b' => Z.of_N (N_of_ascii c) + 256 * le_value b'
  end.

(** [uint8_at(off, whence)] and its like: the unsigned little-endian number
    of [width] bytes at [off], counted from the start of the buffer or from
    the cursor. *)
Definition uint_at (width : Z) (r : ByteReader) (off : Z) (w : whence) : result Z :=
  let base := match w with SEEK_SET => 0 | SEEK_CUR => pos r end in
  b ← read_at r width (base + off); Ok (le_value b).

Definition uint8_at := uint_at 1.
Definition uint16_at := uint_at 2.
Definition uint24_at := uint_at 3.
Definition uint32_at := uint_at 4.

(** [bytes_prefix16()] and [bytes_prefix32()]: a length of [width] bytes at
    the cursor, then that many bytes; the cursor ends after them. *)
Definition bytes_prefix (width : Z) (r : ByteReader) : result (string * ByteReader) :=
  n ← uint_at width r 0 SEEK_CUR;
  r1 ← skip r width;
  read r1 n.

Definition bytes_prefix16 := bytes_prefix 2.
Definition bytes_prefix32 := bytes_prefix 4.

(** [with r.offset(off): body]: the cursor is saved, moved to [off] and put
    back once [body] is done. *)
Definition with_offset {A} (r : ByteReader) (off : Z)
    (body : ByteReader -> result (A * ByteReader)) : result (A * ByteReader) :=
  r1 ← seek r off;
  '(a, r2) ← body r1;
  Ok (a, {| buf := buf r2; pos := tell r |}).

(** *** Records *)

(** A member of one of the enumerations of [constants]. *)
Record enum_member : Type := mkEnum { name : string; value : Z }.

(** An entry of the table of [charsets]. *)
Record Charset : Type := mkCharset {
  charset_name : string;
  collation : string;
  is_default : bool }.

(** The attributes of [constants.HaOption] that [Table.from_data] reads. *)
Record handler_options : Type := mkHaOption {
  PACK_KEYS : bool;
  NO_PACK_KEYS : bool;
  STATS_PERSISTENT : bool;
  NO_STATS_PERSISTENT : bool;
  CHECKSUM : bool;
  DELAY_KEY_WRITE : bool }.

Record TableOptions : Type := mkOptions {
  connection : option string;
  engine : option string;
  charset : option Charset;
  min_rows : Z;
  max_rows : Z;
  avg_row_length : Z;
  pack_keys : option Z;
  delay_key_write : bool;
  checksum : bool;
  row_format : enum_member;
  key_block_size : Z;
  stats_persistent : option Z;
  comment : option string;
  partitions : option string }.

Record Column : Type := mkColumn {
  col_name : string;
  col_type_code : enum_member;
  col_type_name : string;
  col_length : Z;
  col_attributes : list string;
  col_default : option string;
  col_comment : string;
  col_charset : Charset }.

Record Table (Key : Type) : Type := mkTable {
  table_name : string;
  table_charset : Charset;
  mysql_version : MySQLVersion;
  options : TableOptions;
  columns : list Column;
  keys : list Key }.
Arguments mkTable {Key}.
Arguments table_name {Key}.
Arguments table_charset {Key}.
Arguments mysql_version {Key}.
Arguments options {Key}.
Arguments columns {Key}.
Arguments keys {Key}.

Record PackedColumnData : Type := mkPackedColumns {
  count : Z;
  null_count : Z;
  pc_names : string;
  pc_labels : string;
  pc_metadata : string;
  pc_defaults : string;
  pc_comments : string }.

Record PackedFrmData : Type := mkPacked {
  path : string;
  pf_mysql_version : option MySQLVersion;
  keyinfo : string;
  pf_defaults : string;
  extrainfo : ByteReader;
  pf_columns : PackedColumnData }.

(** The [util.Bunch] that [unpack_columns] hands to [mysqltypes]. *)
Record Context (Key : Type) : Type := mkContext {
  null_map : list Z;
  null_bit : Z;
  ctx_table : Table Key;
  ctx_name : string;
  fieldnr : Z;
  ctx_length : Z;
  flags : Z;
  unireg_check : enum_member;
  type_code : enum_member;
  labels : option (list string);
  subtype_code : option enum_member;  (* [None] is the integer 0 *)
  ctx_charset : Charset }.
Arguments mkContext {Key}.
Arguments null_map {Key}.
Arguments null_bit {Key}.
Arguments ctx_table {Key}.
Arguments labels {Key}.
Arguments type_code {Key}.

(** The modules of the package whose code is not under [src/], and the
    library calls that depend on the platform. *)
Class Collaborators (Key : Type) : Type := {
  charsets_lookup : Z -> result Charset;
  LegacyDBType : Z -> result enum_member;
  HaRowType : Z -> result enum_member;
  HaOption : Z -> result handler_options;
  FieldFlag : Z -> result Z;
  Utype : Z -> result enum_member;
  MySQLType : Z -> result enum_member;
  GeometryType : Z -> result enum_member;
  filename_to_tablename : string -> string;
  (* [os.path.basename(os.path.splitext(p)[0])] *)
  path_stem : string -> string;
  (* [b.decode(codec)] *)
  decode : string -> string -> result string;
  unpack_default : ByteReader -> Context Key -> result (option string * ByteReader * Context Key);
  format_type : Context Key -> result string;
  unpack_keys : string -> list Column -> ByteReader -> result (list Key * ByteReader) }.

(** *** [TableOptions] *)

Definition is_digit (c : ascii) : bool :=
  let n := N_of_ascii c in ((48 <=? n) && (n <=? 57))%N.

Fixpoint span_digits (s : string) : string * string :=
  match s with
  | String c s' =>
      if is_digit c then let '(d, r) := span_digits s' in (String c d, r)
      else (EmptyString, s)
  | EmptyString => (EmptyString, EmptyString)
  end.

Definition strip_prefix (p s : string) : option string :=
  if String.prefix p s
  then Some (substring (String.length p) (String.length s) s)
  else None.

(** A match, at the start of [s], of the pattern of [attributes]: the
    opening of a versioned comment, digits, the words ALGORITHM and [=],
    digits, and the closing of the comment. *)
Definition match_algorithm (s : string) : option string :=
  s1 ← strip_prefix "/*!" s;
  let '(d1, s2) := span_digits s1 in
  if String.eqb d1 EmptyString then None else
  s3 ← strip_prefix " ALGORITHM = " s2;
  let '(d2, s4) := span_digits s3 in
  if String.eqb d2 EmptyString then None else
  _ ← strip_prefix " */" s4;
  Some ("/*!" +:+ d1 +:+ " ALGORITHM = " +:+ d2 +:+ " */").

(** The [re.sub] of [attributes]: every match is wrapped so that it closes
    and reopens the enclosing versioned comment. *)
Fixpoint patch_algorithm (skip : nat) (s : string) : string :=
  match s with
  | EmptyString => EmptyString
  | String c s' =>
      match skip with
      | S k => patch_algorithm k s'
      | O =>
          match match_algorithm s with
          | Some m => "*/ " +:+ m +:+ " /*!50100"
                      +:+ patch_algorithm (Nat.pred (String.length m)) s'
          | None => String c (patch_algorithm O s')
          end
      end
  end.

(** [if cond: yield s]. *)
Definition yield_if (cond : bool) (s : string) : list string :=
  if cond then [s] else [].

(** [TableOptions.attributes], the generator as the list it yields. *)
Definition attributes (o : TableOptions) : list string :=
  match connection o with
  | Some c => yield_if (Py.truthy c) ("CONNECTION='" +:+ c +:+ "'")
  | None => []
  end ++
  match engine o with
  | Some e => yield_if (Py.truthy e) ("ENGINE=" +:+ e)
  | None => []
  end ++
  match charset o with
  | Some cs => ("DEFAULT CHARSET=" +:+ charset_name cs)
               :: yield_if (negb (is_default cs)) ("COLLATE=" +:+ collation cs)
  | None => []
  end ++
  yield_if (negb (min_rows o =? 0)) ("MIN_ROWS=" +:+ Py.str_of_Z (min_rows o)) ++
  yield_if (negb (max_rows o =? 0)) ("MAX_ROWS=" +:+ Py.str_of_Z (max_rows o)) ++
  yield_if (negb (avg_row_length o =? 0))
           ("AVG_ROW_LENGTH=" +:+ Py.str_of_Z (avg_row_length o)) ++
  match pack_keys o with
  | Some k => ["PACK_KEYS=" +:+ Py.str_of_Z k]
  | None => []
  end ++
  match stats_persistent o with
  | Some k => ["STATS_PERSISTENT=" +:+ Py.str_of_Z k]
  | None => []
  end ++
  yield_if (checksum o) "CHECKSUM=1" ++
  yield_if (delay_key_write o) "DELAY_KEY_WRITE=1" ++
  yield_if (negb (String.eqb (name (row_format o)) "DEFAULT"))
           ("ROW_FORMAT=" +:+ name (row_format o)) ++
  yield_if (negb (key_block_size o =? 0))
           ("KEY_BLOCK_SIZE=" +:+ Py.str_of_Z (key_block_size o)) ++
  match comment o with
  | Some c => yield_if (Py.truthy c) ("COMMENT '" +:+ c +:+ "'")
  | None => []
  end ++
  match partitions o with
  | Some p => yield_if (Py.truthy p)
                (String "010" "/*!50100 " +:+ patch_algorithm O p +:+ " */")
  | None => []
  end.

(** [TableOptions.__str__]. *)
Definition options_str (o : TableOptions) : string := Py.join " " (attributes o).

(** *** [Table.from_data] *)

(** The engine of the table: the string of the extra section, unless it is
    missing or names the partition engine. *)
Definition resolve_engine `{Collaborators Key} (data : ByteReader)
    (engine : option string) : result string :=
  match engine with
  | Some e =>
      if negb (Py.truthy e) then
        b ← uint8_at data 0x0003 SEEK_SET; m ← LegacyDBType b; Ok (name m)
      else if String.eqb e "partition" then
        b ← uint8_at data 0x003d SEEK_SET; m ← LegacyDBType b; Ok (name m)
      else Ok e
  | None =>
      b ← uint8_at data 0x0003 SEEK_SET; m ← LegacyDBType b; Ok (name m)
  end.

(** The three strings of the extra section, and the reader after them. *)
Definition read_extrainfo (extrainfo : ByteReader)
    : result (option string * option string * option string * ByteReader) :=
  if Py.truthy (getvalue extrainfo) then
    '(connection, r1) ← bytes_prefix16 extrainfo;
    '(engine, r2) ← bytes_prefix16 r1;
    '(partition_info, r3) ← bytes_prefix32 r2;
    r4 ← skip r3 2;
    Ok (Some connection, Some engine, Some partition_info, r4)
  else Ok (None, None, None, extrainfo).

Definition tristate (on off : bool) : option Z :=
  if on then Some 1 else if off then Some 0 else None.

(** [Table.from_data]; the reader of the extra section is an object shared
    with the caller, so its state after the call is returned too. *)
Definition from_data `{Collaborators Key} (data : ByteReader) (context : PackedFrmData)
    : result (Table Key * ByteReader) :=
  let extrainfo := extrainfo context in
  let name := path_stem (path context) in
  cs ← uint8_at data 0x0026 SEEK_SET;
  charset ← charsets_lookup cs;
  v ← uint32_at data 0x0033 SEEK_SET;
  let mysql_version := from_version_id v in
  min_rows ← uint32_at data 0x0016 SEEK_SET;
  max_rows ← uint32_at data 0x0012 SEEK_SET;
  avg_row_length ← uint32_at data 0x0022 SEEK_SET;
  rf ← uint8_at data 0x0028 SEEK_SET;
  row_format ← HaRowType rf;
  key_block_size ← uint16_at data 0x003e SEEK_SET;
  ho ← uint16_at data 0x001e SEEK_SET;
  handler_options ← HaOption ho;
  '(connection, engine, partition_info, extrainfo) ← read_extrainfo extrainfo;
  engine ← resolve_engine data engine;
  let pack_keys := tristate (PACK_KEYS handler_options) (NO_PACK_KEYS handler_options) in
  let stats_persistent :=
    tristate (STATS_PERSISTENT handler_options) (NO_STATS_PERSISTENT handler_options) in
  let checksum := CHECKSUM handler_options in
  let delay_key_write := DELAY_KEY_WRITE handler_options in
  Ok ({| table_name := filename_to_tablename name;
         mysql_version := mysql_version;
         table_charset := charset;
         options := {| connection := connection;
                       engine := Some engine;
                       charset := Some charset;
                       min_rows := min_rows;
                       max_rows := max_rows;
                       avg_row_length := avg_row_length;
                       pack_keys := pack_keys;
                       stats_persistent := stats_persistent;
                       checksum := checksum;
                       delay_key_write := delay_key_write;
                       row_format := row_format;
                       key_block_size := key_block_size;
                       comment := None;
                       partitions := partition_info |};
         columns := [];
         keys := [] |}, extrainfo).

(** *** Columns *)

(** [unpack_column_attributes]. *)
Definition unpack_column_attributes : list string := [].

(** [unpack_column_names]: [names[1:-2]], split at the bytes 0xff. *)
Definition unpack_column_names `{Collaborators Key} (names : string) : result (list string) :=
  traverse (decode "utf8") (Py.split "255" (Py.slice names 1 (-2))).

(** [unpack_column_labels]: [labels[:-1]] split at the bytes 0x00 into groups,
    and each [group[1:-1]] split at the bytes 0xff. *)
Definition unpack_column_labels `{Collaborators Key} (labels : string)
    : result (list (list string)) :=
  traverse (fun group => traverse (decode "utf8") (Py.split "255" (Py.slice group 1 (-1))))
           (Py.split "000" (Py.slice labels 0 (-1))).

(** What one turn of the loop of [unpack_columns] leaves to the next one: the
    three readers and the fields of the context that are not set again on
    every turn. *)
Record loop_state (Key : Type) : Type := mkLoop {
  ls_metadata : ByteReader;
  ls_defaults : ByteReader;
  ls_comments : ByteReader;
  ls_null_map : list Z;
  ls_null_bit : Z;
  ls_table : Table Key }.
Arguments mkLoop {Key}.
Arguments ls_metadata {Key}.
Arguments ls_defaults {Key}.
Arguments ls_comments {Key}.
Arguments ls_null_map {Key}.
Arguments ls_null_bit {Key}.
Arguments ls_table {Key}.

Definition is_enum_or_set (t : enum_member) : bool :=
  String.eqb (name t) "ENUM" || String.eqb (name t) "SET".

(** The labels of a column: [labels[label_id]] with the byte at offset 12 of
    the record, less one, for the types ENUM and SET, and [None] for the
    others. *)
Definition column_labels (labels : list (list string)) (metadata : ByteReader)
    (type_code : enum_member) : result (option (list string)) :=
  if is_enum_or_set type_code then
    b ← uint8_at metadata 12 SEEK_CUR;
    let label_id := b - 1 in
    g ← Py.index labels label_id;
    Ok (Some g)
  else Ok None.

(** The body of the loop of [unpack_columns]: one column. *)
Definition unpack_column `{Collaborators Key} (labels : list (list string))
    (st : loop_state Key) (fieldnr : Z) (name : string)
    : result (Column * loop_state Key) :=
  let metadata := ls_metadata st in
  length ← uint16_at metadata 3 SEEK_CUR;
  fl ← uint16_at metadata 8 SEEK_CUR;
  flags ← FieldFlag fl;
  u ← uint8_at metadata 10 SEEK_CUR;
  unireg_check ← Utype u;
  t ← uint8_at metadata 13 SEEK_CUR;
  type_code ← MySQLType t;
  col_labels ← column_labels labels metadata type_code;
  d ← uint24_at metadata 5 SEEK_CUR;
  let defaults_offset := d - 1 in
  comment_length ← uint16_at metadata 15 SEEK_CUR;
  '(charset_id, subtype_code) ←
    (if negb (String.eqb (Frm.name type_code) "GEOMETRY") then
       hi ← uint8_at metadata 11 SEEK_CUR;
       lo ← uint8_at metadata 14 SEEK_CUR;
       Ok (Z.shiftl hi 8 + lo, None)
     else
       g ← uint8_at metadata 14 SEEK_CUR;
       subtype ← GeometryType g;
       Ok (63, Some subtype));
  metadata ← skip metadata 17;
  charset ← charsets_lookup charset_id;
  let context :=
    {| null_map := ls_null_map st; null_bit := ls_null_bit st; ctx_table := ls_table st;
       ctx_name := name; fieldnr := fieldnr; ctx_length := length; flags := flags;
       unireg_check := unireg_check; type_code := type_code; labels := col_labels;
       subtype_code := subtype_code; ctx_charset := charset |} in
  '(default, context, defaults) ←
    with_offset (ls_defaults st) defaults_offset
      (fun r => '(default, r', context') ← unpack_default r context;
                Ok (default, context', r'));
  '(comment, comments) ← read (ls_comments st) comment_length;
  let attributes := unpack_column_attributes in
  type_name ← format_type context;
  Ok ({| col_name := name;
         col_length := length;
         col_type_code := type_code;
         col_type_name := type_name;
         col_default := default;
         col_attributes := attributes;
         col_charset := charset;
         col_comment := comment |},
      {| ls_metadata := metadata; ls_defaults := defaults; ls_comments := comments;
         ls_null_map := null_map context; ls_null_bit := null_bit context;
         ls_table := ctx_table context |}).

(** [for fieldnr, name in enumerate(names)], from [fieldnr] on. *)
Fixpoint unpack_columns_loop `{Collaborators Key} (labels : list (list string))
    (st : loop_state Key) (fieldnr : Z) (names : list string) : result (list Column) :=
  match names with
  | [] => Ok []
  | name :: names' =>
      '(column, st') ← unpack_column labels st fieldnr name;
      columns ← unpack_columns_loop labels st' (fieldnr + 1) names';
      Ok (column :: columns)
  end.

(** [list(unpack_columns(packed_columns, table))]. *)
Definition unpack_columns `{Collaborators Key} (packed_columns : PackedColumnData)
    (table : Table Key) : result (list Column) :=
  names ← unpack_column_names (pc_names packed_columns);
  labels ← unpack_column_labels (pc_labels packed_columns);
  let metadata := reader_of (pc_metadata packed_columns) in
  let defaults := reader_of (pc_defaults packed_columns) in
  let comments := reader_of (pc_comments packed_columns) in
  '(nulls, defaults) ← read defaults ((null_count packed_columns + 1 + 7) / 8);
  let null_map := map (fun c => Z.of_N (N_of_ascii c)) (list_ascii_of_string nulls) in
  unpack_columns_loop labels
    {| ls_metadata := metadata; ls_defaults := defaults; ls_comments := comments;
       ls_null_map := null_map; ls_null_bit := 1; ls_table := table |}
    0 names.

(** A column section is well formed when its names section holds as many
    names as the header of the file counts columns. *)
Definition names_match_count `{Collaborators Key} (packed_columns : PackedColumnData) : Prop :=
  exists names, unpack_column_names (pc_names packed_columns) = Ok names
                /\ Z.of_nat (length names) = count packed_columns.

(** *** [parse] *)

(** The magic number of a binary [.frm] file. *)
Definition magic : string := String "254" (String "001" EmptyString).

(** The column section: the [with data.offset(metadata_offset)] block. *)
Definition read_column_data (data : ByteReader)
    (metadata_offset column_count null_fields names_length labels_length
     comments_length defaults_length defaults_offset : Z)
    : result (PackedColumnData * ByteReader) :=
  let metadata_length := 17 * column_count in
  with_offset data metadata_offset (fun data =>
    '(metadata, data) ← read data metadata_length;
    '(names, data) ← read data names_length;
    '(labels, data) ← read data labels_length;
    '(comments, data) ← read data comments_length;
    defaults ← read_at data defaults_length defaults_offset;
    Ok ({| count := column_count; null_count := null_fields;
           pc_metadata := metadata; pc_names := names; pc_labels := labels;
           pc_comments := comments; pc_defaults := defaults |}, data)).

(** The bytes of the table comment, and the reader of the extra section
    after they are read. *)
Definition read_table_comment (data extrainfo : ByteReader) (forminfo_offset : Z)
    : result (string * ByteReader) :=
  table_comment_length ← uint8_at data (forminfo_offset + 46) SEEK_SET;
  if negb (table_comment_length =? 0xff) then
    table_comment ← read_at data table_comment_length (forminfo_offset + 47);
    Ok (table_comment, extrainfo)
  else bytes_prefix16 extrainfo.

Definition set_comment {Key} (table : Table Key) (c : string) : Table Key :=
  let o := options table in
  {| table_name := table_name table; table_charset := table_charset table;
     mysql_version := mysql_version table;
     options := {| connection := connection o; engine := engine o; charset := charset o;
                   min_rows := min_rows o; max_rows := max_rows o;
                   avg_row_length := avg_row_length o; pack_keys := pack_keys o;
                   delay_key_write := delay_key_write o; checksum := checksum o;
                   row_format := row_format o; key_block_size := key_block_size o;
                   stats_persistent := stats_persistent o; comment := Some c;
                   partitions := partitions o |};
     columns := columns table; keys := keys table |}.

(** The first half of [parse(path)], with the bytes of the file at [path] as
    [content]: the sections of the file.  The reader of the whole file and
    the offset of forminfo are used again by the second half. *)
Definition read_frm (path content : string) : result (ByteReader * Z * PackedFrmData) :=
  let data := reader_of content in
  '(m, data) ← read data 2;
  if negb (String.eqb m magic) then Raise IOError_EINVAL else
  v ← uint32_at data 0x0033 SEEK_SET;
  let mysql_version := from_version_id v in
  keyinfo_offset ← uint16_at data 0x0006 SEEK_SET;
  keyinfo_length ← uint16_at data 0x000e SEEK_SET;
  keyinfo_length ←
    (if keyinfo_length =? 0xffff then uint32_at data 0x002f SEEK_SET else Ok keyinfo_length);
  let defaults_offset := keyinfo_offset + keyinfo_length in
  defaults_length ← uint16_at data 0x0010 SEEK_SET;
  defaults ← read_at data defaults_length defaults_offset;
  let extrainfo_offset := defaults_offset + defaults_length in
  extrainfo_length ← uint32_at data 0x0037 SEEK_SET;
  names_length ← uint16_at data 0x0004 SEEK_SET;
  let header_size := 64 in
  forminfo_offset ← uint32_at data (header_size + names_length) SEEK_SET;
  let forminfo_length := 288 in
  screens_length ← uint16_at data (forminfo_offset + 260) SEEK_SET;
  null_fields ← uint16_at data (forminfo_offset + 282) SEEK_SET;
  column_count ← uint16_at data (forminfo_offset + 258) SEEK_SET;
  names_length ← uint16_at data (forminfo_offset + 268) SEEK_SET;
  labels_length ← uint16_at data (forminfo_offset + 274) SEEK_SET;
  comments_length ← uint16_at data (forminfo_offset + 284) SEEK_SET;
  let metadata_offset := forminfo_offset + forminfo_length + screens_length in
  '(column_data, data) ←
    read_column_data data metadata_offset column_count null_fields names_length
      labels_length comments_length defaults_length defaults_offset;
  keyinfo ← read_at data keyinfo_length keyinfo_offset;
  defaults ← read_at data defaults_length defaults_offset;
  extra ← read_at data extrainfo_length extrainfo_offset;
  Ok (data, forminfo_offset,
      {| pf_mysql_version := None; path := path; keyinfo := keyinfo;
         pf_defaults := defaults; extrainfo := reader_of extra;
         pf_columns := column_data |}).

(** [parse(path)]: the sections, then the table, its columns, its keys and
    its comment. *)
Definition parse `{Collaborators Key} (path content : string) : result (Table Key) :=
  '(data, forminfo_offset, packed_frm_data) ← read_frm path content;
  '(table, extrainfo) ← from_data data packed_frm_data;
  columns ← unpack_columns (pf_columns packed_frm_data) table;
  '(indexes, extrainfo) ← unpack_keys (keyinfo packed_frm_data) columns extrainfo;
  '(table_comment, extrainfo) ← read_table_comment data extrainfo forminfo_offset;
  table ←
    (if Py.truthy table_comment then
       c ← decode (charset_name (table_charset table)) table_comment;
       Ok (set_comment table c)
     else Ok table);
  Ok {| table_name := table_name table; table_charset := table_charset table;
        mysql_version := Frm.mysql_version table; options := options table;
        columns := columns; keys := indexes |}.

End Frm.

(** ** [dbsake.mysqldumpsplit] *)
Module Split.

(** The parts of the package whose code is not under [src/], and the calls
    of the standard library whose result depends on the platform. *)
Class Collaborators : Type := {
  (* [parser.extract_identifier] *)
  extract_identifier : string -> string;
  (* [defer.extract_create_table] *)
  extract_create_table : string -> string;
  (* [defer.split_indexes(table_ddl, defer_constraints)]: the ALTER TABLE
     statement, if any, and the CREATE TABLE statement without what the
     former adds *)
  split_indexes : string -> bool -> option string * string;
  (* [re.compile(regex)], as the test [search(name)] of the pattern *)
  re_compile : string -> result (string -> bool);
  (* what [path.makedirs(directory, exist_ok=True)] returns *)
  makedirs_created : string -> bool;
  (* whether a directory that the run has not made itself is there when a
     file is opened in it *)
  isdir : string -> bool;
  (* [os.path.abspath] *)
  abspath : string -> string }.

(** The keyword arguments of [split_mysqldump]. *)
Record config : Type := mkConfig {
  target : string;
  directory : string;
  filter_command : string;
  regex : string }.

Definition default_config : config :=
  {| target := "5.5"; directory := "."; filter_command := "gzip -1"; regex := ".*" |}.

(** The levels of the logger that the function uses, and a record of the
    log: a level and a message. *)
Inductive level : Type := WARNING | INFO | DEBUG.

Definition log_record : Type := level * string.

(** What a run does to the file system. *)
Inductive effect : Type :=
  (* [path.makedirs(p, exist_ok=True)] *)
  | Makedirs (p : string)
  (* [open(file, 'wb').close()] *)
  | Truncate (file : string)
  (* [output]: [file] is opened with [mode], and [items] are written, one by
     one, to the standard input of [cmd], whose output goes to [file] *)
  | Output (file mode cmd : string) (items : list string).

(** One element of [parser.sections]: the type of the section and its
    lines. *)
Definition section : Type := string * list string.

(** The local variables of [split_mysqldump] that live across the turns of
    its loop, the log and the effects so far.  [db] is [None] as long as the
    variable is not bound. *)
Record state : Type := mkState {
  db : option string;
  header : option string;
  post_data : option string;
  table_count : Z;
  database_count : Z;
  view_count : Z;
  log : list log_record;
  effects : list effect }.

(** A statement of the function: it changes the state and either goes on
    with a value or raises. *)
Definition M (A : Type) : Type := state -> state * result A.

#[global] Instance M_ret : MRet M := fun A a st => (st, Ok a).
#[global] Instance M_bind : MBind M := fun A B k m st =>
  match m st with
  | (st', Ok a) => k a st'
  | (st', Raise e) => (st', Raise e)
  end.

Definition raise {A} (e : exn) : M A := fun st => (st, Raise e).
Definition lift {A} (r : result A) : M A := fun st => (st, r).
Definition get {A} (f : state -> A) : M A := fun st => (st, Ok (f st)).
Definition modify (f : state -> state) : M unit := fun st => (f st, Ok tt).

Definition set_db (v : string) (st : state) : state :=
  {| db := Some v; header := header st; post_data := post_data st;
     table_count := table_count st; database_count := database_count st;
     view_count := view_count st; log := log st; effects := effects st |}.
Definition set_header (v : string) (st : state) : state :=
  {| db := db st; header := Some v; post_data := post_data st;
     table_count := table_count st; database_count := database_count st;
     view_count := view_count st; log := log st; effects := effects st |}.
Definition set_post_data (v : option string) (st : state) : state :=
  {| db := db st; header := header st; post_data := v;
     table_count := table_count st; database_count := database_count st;
     view_count := view_count st; log := log st; effects := effects st |}.
Definition incr_table_count (st : state) : state :=
  {| db := db st; header := header st; post_data := post_data st;
     table_count := table_count st + 1; database_count := database_count st;
     view_count := view_count st; log := log st; effects := effects st |}.
Definition incr_database_count (st : state) : state :=
  {| db := db st; header := header st; post_data := post_data st;
     table_count := table_count st; database_count := database_count st + 1;
     view_count := view_count st; log := log st; effects := effects st |}.
Definition incr_view_count (st : state) : state :=
  {| db := db st; header := header st; post_data := post_data st;
     table_count := table_count st; database_count := database_count st;
     view_count := view_count st + 1; log := log st; effects := effects st |}.
Definition add_log (r : log_record) (st : state) : state :=
  {| db := db st; header := header st; post_data := post_data st;
     table_count := table_count st; database_count := database_count st;
     view_count := view_count st; log := log st ++ [r]; effects := effects st |}.
Definition add_effect (e : effect) (st : state) : state :=
  {| db := db st; header := header st; post_data := post_data st;
     table_count := table_count st; database_count := database_count st;
     view_count := view_count st; log := log st; effects := effects st ++ [e] |}.

Definition logging (r : log_record) : M unit := modify (add_log r).
Definition perform (e : effect) : M unit := modify (add_effect e).

(** Reading [db]: [NameError] while the variable is not bound. *)
Definition read_db : M string :=
  fun st => match db st with
            | Some d => (st, Ok d)
            | None => (st, Raise NameError)
            end.

(** [cmd_to_ext]. *)
Definition extensions : gmap string string :=
  list_to_map [("gzip", ".gz"); ("pigz", ".gz"); ("bzip2", ".bz2"); ("pbzip2", ".bz2");
               ("lzop", ".lzo"); ("xz", ".xz"); ("lzma", ".lzma")].

Definition cmd_to_ext (cmd : string) : result string :=
  name ← Py.first_word cmd;
  Ok (default EmptyString (extensions !! name)).

(** The items of [iterable] that [process.stdin.write] accepts before the
    first one that is [None]. *)
Fixpoint written (items : list (option string)) : list string :=
  match items with
  | Some s :: items' => s :: written items'
  | _ => []
  end.

Definition all_strings (items : list (option string)) : bool :=
  forallb (fun i => match i with Some _ => true | None => false end) items.

(** The directories that [path.makedirs] was called on. *)
Definition made_dirs (es : list effect) : list string :=
  flat_map (fun e => match e with Makedirs p => [p] | _ => [] end) es.

(** Whether [open(file, mode)] finds the directory of [file], for the modes
    ['wb'] and ['ab']: the directory of the run, which [path.makedirs] has
    made before the first section is read, and the directories made since
    are there; for a file elsewhere, which is where a table name with a
    slash leads, the platform tells. *)
Definition can_open `{Collaborators} (directory : string) (es : list effect) (file : string)
    : bool :=
  existsb (fun d => Py.inside d file) (directory :: made_dirs es)
  || isdir (Py.dirname file).

(** [open(file, mode)]: [IOError] when the directory of [file] is missing. *)
Definition open_file `{Collaborators} (directory file : string) : M unit :=
  fun st => if can_open directory (effects st) file then (st, Ok tt)
            else (st, Raise IOError_ENOENT).

(** [output(cmd, name, iterable, mode)], in a run with the output directory
    [directory]: the file is opened before the first item is written, and
    writing [None] raises [TypeError]. *)
Definition output `{Collaborators} (directory cmd name : string)
    (iterable : list (option string)) (mode : string) : M unit :=
  ext ← lift (cmd_to_ext cmd);
  open_file directory (name +:+ ext);;
  perform (Output (name +:+ ext) mode cmd (written iterable));;
  if all_strings iterable then mret tt else raise TypeError.

(** [itertools.chain([header], lines)]. *)
Definition chain_header (header : option string) (lines : list string)
    : list (option string) :=
  header :: map Some lines.

(** The characters of a string, as iterating over it yields them. *)
Definition chars (s : string) : list string :=
  map (fun c => String c EmptyString) (list_ascii_of_string s).

Definition post_data_header : string :=
  Py.join (String "010" EmptyString)
    [EmptyString; "--"; "-- InnoDB Fast Index Creation (generated by dbsake)"; "--"; EmptyString; EmptyString].

(** The flags that the target version sets, and the warnings of the last
    branch. *)
Definition target_flags (target : string) : bool * bool * list log_record :=
  if String.eqb target "5.5" then (true, false, [])
  else if String.eqb target "5.6" || String.eqb target "5.7" then (true, true, [])
  else (false, false,
        [(WARNING, "Unknown target version '" +:+ target +:+ "'");
         (WARNING, "Indexes will not be deferred")]).

Section Driver.
Context `{Collaborators}.
Variables (directory cmd : string) (defer_indexes defer_constraints : bool).
Variable filter_cre : string -> bool.

(** The branch of ['replication_info']. *)
Definition on_replication_info (iterator : list string) : M unit :=
  let name := Py.path_join directory ["replication_info.sql"] in
  header ← get header;
  let data := chain_header header iterator in
  output directory cmd name data "wb".

(** The branch of ['schema']. *)
Definition on_schema (iterator : list string) : M unit :=
  let lines := iterator in
  line ← lift (Py.index lines 1);
  let db := extract_identifier line in
  modify (set_db db);;
  perform (Makedirs (Py.path_join directory [db]));;
  header ← get header;
  let data := chain_header header lines in
  output directory cmd (Py.path_join directory [db; "create.sql"]) data "wb";;
  modify incr_database_count.

(** The branch of ['schema_routines']. *)
Definition on_schema_routines (iterator : list string) : M unit :=
  header ← get header;
  let data := chain_header header iterator in
  db ← read_db;
  let name := Py.path_join directory [db; "routines.sql"] in
  output directory cmd name data "wb".

(** The branch of ['schema_events']. *)
Definition on_schema_events (iterator : list string) : M unit :=
  header ← get header;
  let data := chain_header header iterator in
  db ← read_db;
  output directory cmd (Py.path_join directory [db; "events.sql"]) data "wb".

(** The branch of ['table_definition']. *)
Definition on_table_definition (iterator : list string) : M unit :=
  let lines := iterator in
  line ← lift (Py.index lines 1);
  let table := extract_identifier line in
  db ← read_db;
  let name := Py.path_join directory [db; table +:+ ".schema.sql"] in
  let table_definition_data := Py.join EmptyString lines in
  let table_ddl := extract_create_table table_definition_data in
  table_definition_data ←
    (if defer_indexes && Py.contains "ENGINE=InnoDB" table_ddl then
       let '(alter_table, create_table) := split_indexes table_ddl defer_constraints in
       match alter_table with
       | Some alter =>
           if Py.truthy alter then
             let info := if negb defer_constraints then "indexes"
                         else "indexes and constraints" in
             logging (INFO, ("Deferring " +:+ info +:+ " for " +:+ db +:+ "." +:+ table
                            +:+ " (" +:+ name +:+ ")"));;
             modify (set_post_data (Some alter));;
             mret (Py.replace table_definition_data table_ddl create_table)
           else mret table_definition_data
       | None => mret table_definition_data
       end
     else mret table_definition_data);
  header ← get header;
  let data := header :: map Some (chars table_definition_data) in
  if filter_cre name then
    output directory cmd name data "wb";;
    modify incr_table_count
  else
    logging (DEBUG, ("No regex match on '" +:+ name +:+ "'")).

(** The branch of ['table_data']. *)
Definition on_table_data (iterator : list string) : M unit :=
  match iterator with
  | c0 :: c1 :: c2 :: iterator =>
      let comments := [c0; c1; c2] in
      let table := extract_identifier c1 in
      db ← read_db;
      let name := Py.path_join directory [db; table +:+ ".data.sql"] in
      header ← get header;
      let data := header :: map Some (comments ++ iterator) in
      post_data ← get post_data;
      data ←
        (if Py.truthy_opt post_data then
           let alter := default EmptyString post_data in
           let data := data ++ [Some post_data_header; Some alter;
                                Some (String "010" EmptyString)] in
           logging (INFO, ("Injecting deferred index creation " +:+ name));;
           logging (DEBUG, (Py.join (String "010" EmptyString) [post_data_header; alter]));;
           modify (set_post_data None);;
           mret data
         else mret data);
      if filter_cre name then output directory cmd name data "wb"
      else logging (DEBUG, ("No regex match on '" +:+ name +:+ "'"))
  | _ => raise StopIteration
  end.

(** The branch of ['header']. *)
Definition on_header (iterator : list string) : M unit :=
  let header := Py.join EmptyString iterator in
  modify (set_header header);;
  match Py.search_to_eol "Database: " header with
  | Some schema =>
      if Py.truthy schema then
        modify (set_db schema);;
        perform (Makedirs (Py.path_join directory [schema]));;
        modify incr_database_count
      else mret tt
  | None => mret tt
  end.

(** The branch of ['view_temporary_definition'] and ['view_definition']. *)
Definition on_view (iterator : list string) : M unit :=
  db ← read_db;
  let name := Py.path_join directory [db; "views.sql"] in
  if filter_cre name then
    view_count ← get view_count;
    (if view_count =? 0 then open_file directory name;; perform (Truncate name)
     else mret tt);;
    output directory cmd name (map Some iterator) "ab";;
    modify incr_view_count
  else
    logging (DEBUG, ("No regex match on '" +:+ name +:+ "'")).

(** The body of the loop over [parser.sections]. *)
Definition on_section (s : section) : M unit :=
  let '(section_type, iterator) := s in
  if String.eqb section_type "replication_info" then on_replication_info iterator
  else if String.eqb section_type "schema" then on_schema iterator
  else if String.eqb section_type "schema_routines" then on_schema_routines iterator
  else if String.eqb section_type "schema_events" then on_schema_events iterator
  else if String.eqb section_type "table_definition" then on_table_definition iterator
  else if String.eqb section_type "table_data" then on_table_data iterator
  else if String.eqb section_type "header" then on_header iterator
  else if String.eqb section_type "view_temporary_definition"
          || String.eqb section_type "view_definition" then on_view iterator
  else logging (DEBUG, ("Skipping section type: " +:+ section_type)).

(** [for section_type, iterator in parser.sections]. *)
Fixpoint for_sections (sections : list section) : M unit :=
  match sections with
  | [] => mret tt
  | s :: sections' => on_section s;; for_sections sections'
  end.

End Driver.

Definition initial_state : state :=
  {| db := None; header := None; post_data := None; table_count := 0;
     database_count := 0; view_count := 0; log := []; effects := [] |}.

(** [split_mysqldump] from the call of [path.makedirs] on, with the flags
    and the warnings that the target version gave, on the sections that the
    parser finds on the standard input: the value returned, or the
    exception, and the final state. *)
Definition split_with `{Collaborators} (cfg : config) (defer_indexes defer_constraints : bool)
    (warnings : list log_record) (sections : list section) : state * result Z :=
  let cmd := filter_command cfg in
  (modify (fun st => fold_left (fun st r => add_log r st) warnings st);;
   perform (Makedirs (directory cfg));;
   (if makedirs_created (directory cfg)
    then logging (INFO, ("Created output directory '" +:+ abspath (directory cfg) +:+ "'"))
    else mret tt);;
   filter_cre ← lift (re_compile (regex cfg));
   logging (DEBUG, ("Compiled regex " +:+ regex cfg));;
   for_sections (directory cfg) cmd defer_indexes defer_constraints filter_cre sections;;
   database_count ← get database_count;
   table_count ← get table_count;
   view_count ← get view_count;
   logging (INFO, ("Split input into " +:+ Py.str_of_Z database_count +:+ " database(s) "
                  +:+ Py.str_of_Z table_count +:+ " table(s) and "
                  +:+ Py.str_of_Z view_count +:+ " view(s)"));;
   mret 0) initial_state.

(** [split_mysqldump]. *)
Definition split_mysqldump `{Collaborators} (cfg : config) (sections : list section)
    : state * result Z :=
  let '(defer_indexes, defer_constraints, warnings) := target_flags (target cfg) in
  split_with cfg defer_indexes defer_constraints warnings sections.

(** What the effects of a run leave in the files: for every file, the
    streams that were sent through a filter command into it, as pairs of the
    command and its input.  Mode ['wb'] empties the file first, mode ['ab']
    keeps what it holds. *)
Definition apply_effect (fs : gmap string (list (string * string))) (e : effect)
    : gmap string (list (string * string)) :=
  match e with
  | Makedirs _ => fs
  | Truncate file => <[file := []]> fs
  | Output file mode cmd items =>
      let old := if String.eqb mode "ab" then default [] (fs !! file) else [] in
      <[file := old ++ [(cmd, Py.join EmptyString items)]]> fs
  end.

Definition apply_effects (fs : gmap string (list (string * string))) (es : list effect)
    : gmap string (list (string * string)) :=
  fold_left apply_effect es fs.



(** The files that a run empties without writing to them. *)
Definition truncated_files (es : list effect) : list string :=
  flat_map (fun e => match e with Truncate file => [file] | _ => [] end) es.

(** The files that a run opens with [mode]. *)
Definition opened_files (mode : string) (es : list effect) : list string :=
  flat_map (fun e => match e with
                     | Output file m _ _ => if String.eqb m mode then [file] else []
                     | _ => []
                     end) es.

(** A statement keeps a relation between the state before it and the state
    after it, whether it raises or not. *)
Definition preserves {A} (R : state -> state -> Prop) (m : M A) : Prop :=
  forall st, R st (fst (m st)).

(** The pending statement is the same. *)
Definition same_post_data (st st' : state) : Prop := post_data st' = post_data st.

(** Nothing becomes pending. *)
Definition none_pending (st st' : state) : Prop :=
  post_data st = None -> post_data st' = None.

(** The log grows at its end. *)
Definition log_extends (st st' : state) : Prop := exists l, log st' = log st ++ l.

End Split.

(** ** Collaborators for the examples *)
Module Sample.

(** *** The helpers of the splitter *)

Fixpoint rev_string (s acc : string) : string :=
  match s with
  | EmptyString => acc
  | String c s' => rev_string s' (String c acc)
  end.

Definition strip (s : string) : string :=
  rev_string (Py.lstrip (rev_string (Py.lstrip s) EmptyString)) EmptyString.

(** The text before the first backtick of [s], and what follows that
    backtick. *)
Fixpoint until_tick (s : string) : string * option string :=
  match s with
  | EmptyString => (EmptyString, None)
  | String c s' =>
      if Ascii.eqb c "`" then (EmptyString, Some s')
      else let '(a, r) := until_tick s' in (String c a, r)
  end.

(** Modelled from the spec: [parser.extract_identifier], which is not under
    [src/]: the name between the last pair of backticks of a marker line
    (section 4.6); the empty string when the line has no such pair. *)
Definition extract_identifier (line : string) : string :=
  match until_tick (rev_string line EmptyString) with
  | (_, Some r) =>
      match until_tick r with
      | (name, Some _) => rev_string name EmptyString
      | _ => EmptyString
      end
  | _ => EmptyString
  end.

(** The text from the first occurrence of [pat] on. *)
Fixpoint from_first (pat s : string) : option string :=
  if String.prefix pat s then Some s
  else match s with
       | EmptyString => None
       | String _ s' => from_first pat s'
       end.

(** The text up to and with the first semicolon that opens a line;
    [bol] tells whether the next character opens a line. *)
Fixpoint until_semicolon (bol : bool) (s : string) : string :=
  match s with
  | EmptyString => EmptyString
  | String c s' =>
      if bol && Ascii.eqb c ";" then String c EmptyString
      else String c (until_semicolon (Ascii.eqb c "010") s')
  end.

(** Modelled from the spec: [defer.extract_create_table], which is not under
    [src/]: the text from CREATE TABLE to the first semicolon in the first
    column of a line, or to the end of the block (section 4.7). *)
Definition extract_create_table (block : string) : string :=
  match from_first "CREATE TABLE" block with
  | Some s => until_semicolon false s
  | None => EmptyString
  end.

(** The clauses of a table body, cut at the commas that are neither between
    backticks nor between parentheses, and the text from the parenthesis
    that closes the body on.  [s] starts after the parenthesis that opens
    the body. *)
Fixpoint clauses (s : string) (depth : nat) (tick : bool) (cur : string)
    (done : list string) : list string * string :=
  match s with
  | EmptyString => (done ++ [cur], EmptyString)
  | String c s' =>
      let cur' := cur +:+ String c EmptyString in
      if tick then clauses s' depth (negb (Ascii.eqb c "`")) cur' done
      else if Ascii.eqb c "`" then clauses s' depth true cur' done
      else if Ascii.eqb c "(" then clauses s' (S depth) false cur' done
      else if Ascii.eqb c ")" then
        match depth with
        | O => (done ++ [cur], s)
        | S d => clauses s' d false cur' done
        end
      else if Ascii.eqb c "," && Nat.eqb depth 0 then clauses s' 0 false EmptyString (done ++ [cur])
      else clauses s' depth false cur' done
  end.

(** The text before the first opening parenthesis, and the text after it. *)
Fixpoint until_paren (s : string) : string * string :=
  match s with
  | EmptyString => (EmptyString, EmptyString)
  | String c s' =>
      if Ascii.eqb c "(" then (EmptyString, s')
      else let '(a, r) := until_paren s' in (String c a, r)
  end.

Definition is_key (clause : string) : bool :=
  existsb (fun p => String.prefix p (strip clause))
          ["KEY "; "UNIQUE KEY "; "FULLTEXT KEY "; "SPATIAL KEY "].

Definition is_foreign_key (clause : string) : bool :=
  String.prefix "CONSTRAINT " (strip clause) && Py.contains "FOREIGN KEY" clause.

Definition is_column (clause : string) : bool :=
  String.prefix "`" (strip clause).

(** The name between the first pair of backticks of a clause. *)
Definition first_identifier (clause : string) : string :=
  match until_tick clause with
  | (_, Some r) => fst (until_tick r)
  | _ => EmptyString
  end.

(** The names, between backticks, of the columns marked AUTO_INCREMENT. *)
Definition auto_increment_columns (cs : list string) : list string :=
  map (fun c => "`" +:+ first_identifier c +:+ "`")
      (List.filter (fun c => is_column c && Py.contains "AUTO_INCREMENT" c) cs).

Definition names_one_of (columns : list string) (clause : string) : bool :=
  existsb (fun n => Py.contains n (snd (until_paren clause))) columns.

(** Modelled from the spec: [defer.split_indexes], which is not under
    [src/] (section 4.7).  The columns, the primary key and the keys on an
    AUTO_INCREMENT column stay; the other keys, and with [defer_constraints]
    the foreign keys, go to one ALTER TABLE statement, their text kept as it
    is; when nothing goes, there is no statement and the text is unchanged. *)
Definition split_indexes (ddl : string) (defer_constraints : bool) : option string * string :=
  let '(head, body) := until_paren ddl in
  let '(cs, tail) := clauses body 0 false EmptyString [] in
  let auto := auto_increment_columns cs in
  let deferred c := is_key c && negb (names_one_of auto c)
                    || defer_constraints && is_foreign_key c in
  let moved := List.filter deferred cs in
  let kept := List.filter (fun c => negb (deferred c)) cs in
  match moved with
  | [] => (None, ddl)
  | _ =>
      let name := strip (substring 12 (String.length head) head) in
      (Some ("ALTER TABLE " +:+ name +:+ " ADD "
             +:+ String.concat ", ADD " (map strip moved) +:+ ";"),
       head +:+ "(" +:+ String.concat "," kept +:+ tail)
  end.

(** The default pattern matches every name; the library of regular
    expressions is not modelled beyond it. *)
Definition re_compile (regex : string) : result (string -> bool) :=
  if String.eqb regex ".*" then Ok (fun _ => true) else Raise CollaboratorError.

(** The splitter in a directory that exists already and holds no directory
    but those that the run makes. *)
Definition splitter : Split.Collaborators :=
  {| Split.extract_identifier := extract_identifier;
     Split.extract_create_table := extract_create_table;
     Split.split_indexes := split_indexes;
     Split.re_compile := re_compile;
     Split.makedirs_created := fun _ => false;
     Split.isdir := fun _ => false;
     Split.abspath := fun p => p |}.

(** *** The collaborators of the decoder *)

Definition enum_of (table : list (Z * string)) (v : Z) : result Frm.enum_member :=
  match List.find (fun e => fst e =? v) table with
  | Some (_, n) => Ok {| Frm.name := n; Frm.value := v |}
  | None => Raise ValueError
  end.

(** Modelled from the spec: the table of [charsets], which is not under
    [src/], for four ids (section 3: id 63 is binary). *)
Definition charsets_lookup (id : Z) : result Frm.Charset :=
  if id =? 8 then Ok (Frm.mkCharset "latin1" "latin1_swedish_ci" true)
  else if id =? 33 then Ok (Frm.mkCharset "utf8" "utf8_general_ci" true)
  else if id =? 63 then Ok (Frm.mkCharset "binary" "binary" true)
  else if id =? 83 then Ok (Frm.mkCharset "utf8" "utf8_bin" false)
  else Raise LookupError.

(** Modelled from the spec: some members of the enumerations of
    [constants], which is not under [src/], numbered as the server numbers
    them. *)
Definition LegacyDBType : Z -> result Frm.enum_member :=
  enum_of [(0, "UNKNOWN"); (6, "MEMORY"); (9, "MyISAM"); (10, "MRG_MYISAM"); (12, "InnoDB")].

Definition HaRowType : Z -> result Frm.enum_member :=
  enum_of [(0, "DEFAULT"); (1, "FIXED"); (2, "DYNAMIC"); (3, "COMPRESSED");
           (4, "REDUNDANT"); (5, "COMPACT")].

Definition MySQLType : Z -> result Frm.enum_member :=
  enum_of [(3, "LONG"); (15, "VARCHAR"); (247, "ENUM"); (248, "SET"); (255, "GEOMETRY")].

Definition Utype : Z -> result Frm.enum_member :=
  enum_of [(0, "NONE"); (15, "NEXT_NUMBER")].

Definition GeometryType : Z -> result Frm.enum_member :=
  enum_of [(0, "GEOMETRY"); (1, "POINT")].

Definition HaOption (v : Z) : result Frm.handler_options :=
  Ok {| Frm.PACK_KEYS := Z.testbit v 1;
        Frm.CHECKSUM := Z.testbit v 5;
        Frm.DELAY_KEY_WRITE := Z.testbit v 6;
        Frm.NO_PACK_KEYS := Z.testbit v 7;
        Frm.STATS_PERSISTENT := Z.testbit v 12;
        Frm.NO_STATS_PERSISTENT := Z.testbit v 13 |}.

(** The text after the last slash. *)
Fixpoint basename (s : string) : string :=
  match s with
  | EmptyString => EmptyString
  | String c s' => if Py.contains "/" s then basename s' else s
  end.

(** [.frm] paths only: the name of the file without its last four
    characters. *)
Definition path_stem (p : string) : string :=
  let b := basename p in substring 0 (String.length b - 4) b.

(** Seven-bit text only, for every codec. *)
Definition decode (codec b : string) : result string :=
  if forallb (fun c => (N_of_ascii c <? 128)%N) (list_ascii_of_string b) then Ok b
  else Raise UnicodeDecodeError.

(** A decoder for tables without indexes, whose columns have no default. *)
Definition decoder : Frm.Collaborators unit :=
  {| Frm.charsets_lookup := charsets_lookup;
     Frm.LegacyDBType := LegacyDBType;
     Frm.HaRowType := HaRowType;
     Frm.HaOption := HaOption;
     Frm.FieldFlag := fun v => Ok v;
     Frm.Utype := Utype;
     Frm.MySQLType := MySQLType;
     Frm.GeometryType := GeometryType;
     Frm.filename_to_tablename := fun n => n;
     Frm.path_stem := path_stem;
     Frm.decode := decode;
     Frm.unpack_default := fun r c => Ok (None, r, c);
     Frm.format_type := fun c => Ok (Frm.name (Frm.type_code c));
     Frm.unpack_keys := fun _ _ r => Ok ([], r) |}.

(** *** A [.frm] file *)

(** [width] bytes, least significant first. *)
Fixpoint le_bytes (width : nat) (v : Z) : string :=
  match width with
  | O => EmptyString
  | S w => String (ascii_of_N (Z.to_N (v mod 256))) (le_bytes w (v / 256))
  end.

Fixpoint zeros (n : nat) : string :=
  match n with
  | O => EmptyString
  | S n' => String "000" (zeros n')
  end.

(** [s] with the bytes [b] written over it from offset [off] on. *)
Definition poke (off : nat) (b s : string) : string :=
  substring 0 off s +:+ b
  +:+ substring (off + String.length b) (String.length s) s.

Definition pokes (ws : list (nat * string)) (s : string) : string :=
  fold_left (fun s w => poke (fst w) (snd w) s) ws s.

Definition prefixed (width : nat) (b : string) : string :=
  le_bytes width (Py.len b) +:+ b.

(** The 17 bytes of metadata of a column. *)
Definition column_record (type_code label_id charset_id : Z) : string :=
  pokes [(3%nat, le_bytes 2 11); (5%nat, le_bytes 3 1); (11%nat, le_bytes 1 (charset_id / 256));
         (12%nat, le_bytes 1 label_id); (13%nat, le_bytes 1 type_code);
         (14%nat, le_bytes 1 (charset_id mod 256))]
        (zeros 17).

Definition names_section (names : list string) : string :=
  String "255" (String.concat (String "255" EmptyString) names)
  +:+ String "255" (String "000" EmptyString).

Definition labels_section (groups : list (list string)) : string :=
  String.concat EmptyString
    (map (fun g => String "255" (String.concat (String "255" EmptyString) g)
                   +:+ String "255" (String "000" EmptyString)) groups).

(** A file with the sections in the order: header, the offset of forminfo,
    the defaults (one byte), the extra section, forminfo, the metadata,
    the names and the labels; no keys, no screens, no column comments. *)
Definition frm_file (legacy_db_type : Z) (extra : string) (comment_length : Z)
    (short_comment : string) (column_count : Z) (records : list string)
    (names : list string) (groups : list (list string)) : string :=
  let forminfo_offset := 69 + Py.len extra in
  let names_s := names_section names in
  let labels_s := labels_section groups in
  pokes [(0%nat, Frm.magic); (3%nat, le_bytes 1 legacy_db_type); (4%nat, le_bytes 2 0);
         (6%nat, le_bytes 2 68); (14%nat, le_bytes 2 0); (16%nat, le_bytes 2 1);
         (30%nat, le_bytes 2 128); (38%nat, le_bytes 1 8);
         (51%nat, le_bytes 4 50515); (55%nat, le_bytes 4 (Py.len extra));
         (61%nat, le_bytes 1 9)]
        (zeros 64)
  +:+ le_bytes 4 forminfo_offset
  +:+ zeros 1
  +:+ extra
  +:+ pokes [(46%nat, le_bytes 1 comment_length); (47%nat, short_comment);
             (258%nat, le_bytes 2 column_count); (268%nat, le_bytes 2 (Py.len names_s));
             (274%nat, le_bytes 2 (Py.len labels_s))]
            (zeros 288)
  +:+ String.concat EmptyString records
  +:+ names_s
  +:+ labels_s.

(** The extra section: the connection string, the engine, the partition
    clause with its final zero byte and the flag that follows, and then a
    long comment if there is one. *)
Definition extra_section (connection engine partition_clause : string) (rest : string) : string :=
  prefixed 2 connection +:+ prefixed 2 engine +:+ prefixed 4 partition_clause
  +:+ zeros 2 +:+ rest.

(** [t.frm]: an InnoDB table with a short comment and the columns [id], of
    type LONG, and [kind], of type ENUM with the label id 0; two groups of
    labels. *)
Definition t_frm : string :=
  frm_file 12 (extra_section EmptyString "InnoDB" EmptyString EmptyString) 5 "hello" 2
    [column_record 3 0 8; column_record 247 0 8] ["id"; "kind"]
    [["a"; "b"]; ["x"; "y"]].

(** [p.frm]: a partitioned table, with a comment in the extra section. *)
Definition p_frm : string :=
  frm_file 12 (extra_section EmptyString "partition" "PARTITION BY HASH (id)" (prefixed 2 "long"))
    255 EmptyString 1 [column_record 3 0 8] ["id"] [].

(** [m.frm]: a table without an extra section. *)
Definition m_frm : string :=
  frm_file 9 EmptyString 0 EmptyString 1 [column_record 3 0 8] ["id"] [].

(** *** A dump *)

Definition lf : string := String "010" EmptyString.

Definition lines (l : list string) : list string := map (fun s => s +:+ lf) l.

(** The header of a dump of the database [app]. *)
Definition dump_header : Split.section :=
  ("header", lines ["-- MySQL dump 10.13  Distrib 5.5.15";
                    "--";
                    "-- Host: localhost    Database: app";
                    "-- ------------------------------------------------------"]).

(** The header of a dump of several databases. *)
Definition dump_header_all : Split.section :=
  ("header", lines ["-- MySQL dump 10.13  Distrib 5.5.15";
                    "--";
                    "-- Host: localhost    Database: ";
                    "-- ------------------------------------------------------"]).

Definition schema (d : string) : Split.section :=
  ("schema", lines ["--";
                    "-- Current Database: `" +:+ d +:+ "`";
                    "--";
                    EmptyString;
                    "CREATE DATABASE `" +:+ d +:+ "`;";
                    "USE `" +:+ d +:+ "`;"]).

(** An InnoDB table with a secondary key. *)
Definition table_definition (t : string) : Split.section :=
  ("table_definition",
   lines ["--";
          "-- Table structure for table `" +:+ t +:+ "`";
          "--";
          EmptyString;
          "DROP TABLE IF EXISTS `" +:+ t +:+ "`;";
          "CREATE TABLE `" +:+ t +:+ "` (";
          "  `id` int(11) NOT NULL AUTO_INCREMENT,";
          "  `v` int(11) DEFAULT NULL,";
          "  PRIMARY KEY (`id`),";
          "  KEY `i_v` (`v`)";
          ") ENGINE=InnoDB DEFAULT CHARSET=latin1;"]).

Definition table_data (t : string) : Split.section :=
  ("table_data",
   lines ["--";
          "-- Dumping data for table `" +:+ t +:+ "`";
          "--";
          EmptyString;
          "INSERT INTO `" +:+ t +:+ "` VALUES (1,2);"]).

Definition view_definition (v : string) : Split.section :=
  ("view_definition",
   lines ["--";
          "-- Final view structure for view `" +:+ v +:+ "`";
          "--";
          EmptyString;
          "CREATE VIEW `" +:+ v +:+ "` AS select 1;"]).

(** What an earlier run left in a file. *)
Definition stale : list (string * string) := [("gzip -1", "-- an earlier run")].




(** A configuration whose filter command adds no extension, and one for a
    target that is not known. *)
Definition cat_config : Split.config :=
  {| Split.target := "5.5"; Split.directory := "."; Split.filter_command := "cat";
     Split.regex := ".*" |}.

Definition old_config : Split.config :=
  {| Split.target := "4.1"; Split.directory := "."; Split.filter_command := "cat";
     Split.regex := ".*" |}.

(** A dump of one database with a view, and a dump of two databases with a
    view each. *)
Definition dump_with_view : list Split.section :=
  [dump_header; view_definition "v"].

Definition dump_of_two_databases : list Split.section :=
  [dump_header_all; schema "a"; view_definition "v"; schema "b"; view_definition "w"].

End Sample.

(** ** The option tail, as the specification words it *)
Module Tail.

(** The attributes of the option tail; the COLLATE clause goes with the
    character set. *)
Inductive attr : Type :=
  | connection | engine | charset | collate | min_rows | max_rows | avg_row_length
  | pack_keys | stats_persistent | checksum | delay_key_write | row_format
  | key_block_size | comment | partitions.

(** The order in which the tail lists them. *)
Definition rendering_order : list attr :=
  [connection; engine; charset; collate; min_rows; max_rows; avg_row_length;
   pack_keys; stats_persistent; checksum; delay_key_write; row_format;
   key_block_size; comment; partitions].

(** The text that opens the rendering of an attribute. *)
Definition keyword (a : attr) : string :=
  match a with
  | connection => "CONNECTION='"
  | engine => "ENGINE="
  | charset => "DEFAULT CHARSET="
  | collate => "COLLATE="
  | min_rows => "MIN_ROWS="
  | max_rows => "MAX_ROWS="
  | avg_row_length => "AVG_ROW_LENGTH="
  | pack_keys => "PACK_KEYS="
  | stats_persistent => "STATS_PERSISTENT="
  | checksum => "CHECKSUM="
  | delay_key_write => "DELAY_KEY_WRITE="
  | row_format => "ROW_FORMAT="
  | key_block_size => "KEY_BLOCK_SIZE="
  | comment => "COMMENT '"
  | partitions => String "010" "/*!50100 "
  end.

(** The attribute that a piece of the tail renders. *)
Definition attr_of (s : string) : option attr :=
  List.find (fun a => String.prefix (keyword a) s) rendering_order.

(** Whether the value of an attribute is set: a string that is there and not
    empty, a number of rows or a block size that is not zero, a tristate
    that is not [None], a flag that is true, a row format other than DEFAULT,
    and for COLLATE a character set that is not the default collation of its
    name. *)
Definition is_set (o : Frm.TableOptions) (a : attr) : bool :=
  match a with
  | connection => Py.truthy_opt (Frm.connection o)
  | engine => Py.truthy_opt (Frm.engine o)
  | charset => bool_decide (is_Some (Frm.charset o))
  | collate => match Frm.charset o with
               | Some cs => negb (Frm.is_default cs)
               | None => false
               end
  | min_rows => negb (Frm.min_rows o =? 0)
  | max_rows => negb (Frm.max_rows o =? 0)
  | avg_row_length => negb (Frm.avg_row_length o =? 0)
  | pack_keys => bool_decide (is_Some (Frm.pack_keys o))
  | stats_persistent => bool_decide (is_Some (Frm.stats_persistent o))
  | checksum => Frm.checksum o
  | delay_key_write => Frm.delay_key_write o
  | row_format => negb (String.eqb (Frm.name (Frm.row_format o)) "DEFAULT")
  | key_block_size => negb (Frm.key_block_size o =? 0)
  | comment => Py.truthy_opt (Frm.comment o)
  | partitions => Py.truthy_opt (Frm.partitions o)
  end.

End Tail.

(** ** Rendering of a column *)
Module Render.

(** The name of a column between backticks, as [Column.__str__] writes it:
    every backtick of the name is doubled. *)
Definition quoted_name (name : string) : string :=
  "`" +:+ Py.replace name "`" "``" +:+ "`".

(** The comment of a column between quotes, as [Column.__str__] writes it:
    every quote of the comment gets a backslash before it. *)
Definition quoted_comment (comment : string) : string :=
  "COMMENT '" +:+ Py.replace comment "'" (String "\" "'") +:+ "'".

(** [Column.__str__]. *)
Definition column_str (c : Frm.Column) : string :=
  let components :=
    [quoted_name (Frm.col_name c); Frm.col_type_name c]
    ++ match Frm.col_default c with
       | Some d => if Py.truthy d then ["DEFAULT " +:+ d] else []
       | None => []
       end
    ++ (if Py.truthy (Frm.col_comment c) then [quoted_comment (Frm.col_comment c)] else []) in
  Py.join " " components.

End Render.

(** ** Counting *)
Module Count.

(** The number of characters of [s] that are [c]. *)
Fixpoint occurrences (c : ascii) (s : string) : nat :=
  match s with
  | EmptyString => O
  | String a s' => (if Ascii.eqb a c then 1 else 0) + occurrences c s'
  end.

(** Whether no character of [s] is white space. *)
Definition no_space (s : string) : bool :=
  forallb (fun c => negb (Py.is_space c)) (list_ascii_of_string s).

(** What a run keeps true of the views between two sections: the counter of
    the views is the number of files opened for appending, no file was
    emptied as long as the counter is zero, and at most one file was
    emptied. *)
Definition views_counted (st : Split.state) : Prop :=
  Split.view_count st
  = Z.of_nat (length (Split.opened_files "ab" (Split.effects st)))
  /\ (Split.view_count st = 0 -> Split.truncated_files (Split.effects st) = [])
  /\ (length (Split.truncated_files (Split.effects st)) <= 1)%nat.

(** A statement leaves the files emptied, the files opened for appending and
    the counter of the views as they are. *)
Definition same_views (st st' : Split.state) : Prop :=
  Split.truncated_files (Split.effects st') = Split.truncated_files (Split.effects st)
  /\ Split.opened_files "ab" (Split.effects st') = Split.opened_files "ab" (Split.effects st)
  /\ Split.view_count st' = Split.view_count st.

(** A statement leaves the effects and the counter of the tables as they
    are. *)
Definition same_files (st st' : Split.state) : Prop :=
  Split.effects st' = Split.effects st /\ Split.table_count st' = Split.table_count st
  /\ Split.view_count st' = Split.view_count st.

(** A statement started in a state where [P] holds ends, when it returns
    [a], in a state where [Q a] holds and, when it raises, in a state where
    [E] holds. *)
Definition triple {A} (P : Split.state -> Prop) (m : Split.M A)
    (Q : A -> Split.state -> Prop) (E : Split.state -> Prop) : Prop :=
  forall st, P st ->
    match m st with
    | (st', Ok a) => Q a st'
    | (st', Raise _) => E st'
    end.

(** At most one file was emptied. *)
Definition emptied_once (st : Split.state) : Prop :=
  (length (Split.truncated_files (Split.effects st)) <= 1)%nat.

End Count.

(** ** More files and the states of a run *)
Module Stage.

(** The state of a run for the target 5.5 after the header of a dump of the
    database [app], and after the definition of the table [t1] that
    follows it. *)
Definition after_header : Split.state :=
  fst (Split.on_section (H := Sample.splitter) "." "gzip -1" true false (fun _ => true)
         Sample.dump_header Split.initial_state).

Definition after_definition : Split.state :=
  fst (Split.on_section (H := Sample.splitter) "." "gzip -1" true false (fun _ => true)
         (Sample.table_definition "t1") after_header).

(** The statement that is pending after the definition of [t1]. *)
Definition pending : string :=
  match Split.post_data after_definition with
  | Some alter => alter
  | None => EmptyString
  end.

(** [wide.frm]: the header counts three columns and the metadata hold three
    records, the names section holds two names. *)
Definition wide_frm : string :=
  Sample.frm_file 12
    (Sample.extra_section EmptyString "InnoDB" EmptyString EmptyString) 0 EmptyString 3
    [Sample.column_record 3 0 8; Sample.column_record 15 0 33; Sample.column_record 3 0 8]
    ["id"; "name"] [].

(** [geo.frm]: the columns [id], of type LONG, and [shape], of type GEOMETRY
    with the subtype POINT. *)
Definition geo_frm : string :=
  Sample.frm_file 12
    (Sample.extra_section EmptyString "InnoDB" EmptyString EmptyString) 0 EmptyString 2
    [Sample.column_record 3 0 8; Sample.column_record 255 0 1]
    ["id"; "shape"] [].




End Stage.

(** * Properties *)

(** ** The built-ins on examples *)

Example version_50515 : Frm.version_str (Frm.from_version_id 50515) = "5.5.15".
Proof. reflexivity. Qed.

Example split_ff : Py.split "255" (String "a" (String "255" (String "b" EmptyString))) = ["a"; "b"].
Proof. reflexivity. Qed.

Example slice_names : Py.slice (String "255" "id" +:+ String "255" (String "000" EmptyString)) 1 (-2) = "id".
Proof. reflexivity. Qed.

Example join_views : Py.path_join "." ["app"; "views.sql"] = "./app/views.sql".
Proof. reflexivity. Qed.

Example replace_all : Py.replace "a-b-c" "-" "++" = "a++b++c".
Proof. reflexivity. Qed.

Example search_db :
  Py.search_to_eol "Database: " ("-- Host: localhost    Database: app" +:+ String "010" "-- ---")
  = Some "app".
Proof. reflexivity. Qed.

(** ** Inversion of the error monad *)

Lemma bind_ok {A B} (m : result A) (k : A -> result B) (b : B) :
  m ≫= k = Ok b -> exists a, m = Ok a /\ k a = Ok b.
Proof. destruct m as [a|e]; simpl; [eauto | discriminate]. Qed.

(** Splits [H : (x ← m; k) = Ok b] into [m = Ok x] and [k x = Ok b], as often
    as it can. *)
Ltac bind_inv H :=
  repeat match type of H with
  | _ ≫= _ = Ok _ =>
      let x := fresh "x" in
      let E := fresh "E" in
      apply bind_ok in H; destruct H as (x & E & H);
      repeat match goal with
             | p : (_ * _)%type |- _ => destruct p
             end;
      cbv beta iota in H
  end.

(** ** Properties of [Table.from_data] *)

Section FromData.
Context {Key : Type} `{!Frm.Collaborators Key}.

Lemma from_data_inv (data : Frm.ByteReader) (context : Frm.PackedFrmData)
    (t : Frm.Table Key) (r : Frm.ByteReader) :
  Frm.from_data data context = Ok (t, r) ->
  exists cs v ho handler_options connection engine partition_info e,
    Frm.uint8_at data 0x26 Frm.SEEK_SET = Ok cs
    /\ Frm.charsets_lookup cs = Ok (Frm.table_charset t)
    /\ Frm.uint32_at data 0x33 Frm.SEEK_SET = Ok v
    /\ Frm.mysql_version t = Frm.from_version_id v
    /\ Frm.uint16_at data 0x1e Frm.SEEK_SET = Ok ho
    /\ Frm.HaOption ho = Ok handler_options
    /\ Frm.read_extrainfo (Frm.extrainfo context)
       = Ok (connection, engine, partition_info, r)
    /\ Frm.resolve_engine data engine = Ok e
    /\ Frm.connection (Frm.options t) = connection
    /\ Frm.engine (Frm.options t) = Some e
    /\ Frm.partitions (Frm.options t) = partition_info
    /\ Frm.comment (Frm.options t) = None
    /\ Frm.pack_keys (Frm.options t)
       = Frm.tristate (Frm.PACK_KEYS handler_options) (Frm.NO_PACK_KEYS handler_options)
    /\ Frm.stats_persistent (Frm.options t)
       = Frm.tristate (Frm.STATS_PERSISTENT handler_options)
                      (Frm.NO_STATS_PERSISTENT handler_options)
    /\ Frm.checksum (Frm.options t) = Frm.CHECKSUM handler_options
    /\ Frm.delay_key_write (Frm.options t) = Frm.DELAY_KEY_WRITE handler_options.
Proof.
  unfold Frm.from_data. intros Hd.
  bind_inv Hd.
  injection Hd as <- <-. simpl.
  repeat eexists; eauto.
Qed.

End FromData.

(** ** Properties of [MySQLVersion] *)

Lemma string_of_uint_head (d : Decimal.uint) :
  exists c s, NilZero.string_of_uint d = String c s /\ c <> "<"%char.
Proof.
  destruct d; simpl; eexists _, _; (split; [reflexivity | discriminate]).
Qed.

(** The text of an integer never starts with the sign [<]. *)
Lemma str_of_Z_head (z : Z) :
  exists c s, Py.str_of_Z z = String c s /\ c <> "<"%char.
Proof.
  unfold Py.str_of_Z.
  destruct z as [|p|p]; simpl.
  - eexists _, _; split; [reflexivity | discriminate].
  - apply string_of_uint_head.
  - eexists _, _; split; [reflexivity | discriminate].
Qed.

Lemma is_zero_version_spec (mv : Frm.MySQLVersion) :
  Frm.is_zero_version mv = true <-> mv = Frm.mkVersion 0 0 0.
Proof.
  destruct mv as [a b c]; unfold Frm.is_zero_version; simpl.
  rewrite !andb_true_iff, !Z.eqb_eq.
  split; [intros [[-> ->] ->]; reflexivity | intros [= -> -> ->]; auto].
Qed.

(** C7: the version of a table is made of the 32-bit number v at offset
    0x33 of the header as (v / 10000, v mod 1000 / 100, v mod 100); a version
    renders as its three numbers joined by dots, and as "< 5.0" exactly when
    the three numbers are zero. *)
Theorem mysql_version_derivation_and_rendering (v : Z) (mv : Frm.MySQLVersion) :
  Frm.from_version_id v = Frm.mkVersion (v / 10000) (v mod 1000 / 100) (v mod 100)
  /\ (Frm.version_str mv = "< 5.0" <-> mv = Frm.mkVersion 0 0 0)
  /\ (mv <> Frm.mkVersion 0 0 0 ->
      Frm.version_str mv
      = Py.str_of_Z (Frm.major mv) +:+ "." +:+ Py.str_of_Z (Frm.minor mv)
        +:+ "." +:+ Py.str_of_Z (Frm.release mv))
  /\ (forall (Key : Type) (C : Frm.Collaborators Key) data context (t : Frm.Table Key) r,
        Frm.from_data data context = Ok (t, r) ->
        exists id, Frm.uint32_at data 0x33 Frm.SEEK_SET = Ok id
                   /\ Frm.mysql_version t = Frm.from_version_id id).
Proof.
  split; [reflexivity |].
  assert (Hjoin : Py.join "." (map Py.str_of_Z [Frm.major mv; Frm.minor mv; Frm.release mv])
                  = Py.str_of_Z (Frm.major mv) +:+ "." +:+ Py.str_of_Z (Frm.minor mv)
                    +:+ "." +:+ Py.str_of_Z (Frm.release mv)).
  { reflexivity. }
  split; [| split].
  - unfold Frm.version_str.
    destruct (Frm.is_zero_version mv) eqn:Hz.
    + apply is_zero_version_spec in Hz. tauto.
    + split.
      * rewrite Hjoin.
        destruct (str_of_Z_head (Frm.major mv)) as (c & s & -> & Hc).
        simpl. intros [= Hc' _]. congruence.
      * intros Heq. apply is_zero_version_spec in Heq. congruence.
  - intros Hne. unfold Frm.version_str.
    destruct (Frm.is_zero_version mv) eqn:Hz; [| exact Hjoin].
    apply is_zero_version_spec in Hz. contradiction.
  - intros Key C data context t r Hd.
    destruct (from_data_inv _ _ _ _ Hd) as (cs & id & ho & rest).
    destruct rest as (hopt & connection & engine & partition_info & e & _ & _ & Hid & Hv & _).
    exists id. split; assumption.
Qed.

(** ** Properties of the option tail *)

Lemma prefix_empty (s : string) : String.prefix EmptyString s = true.
Proof. destruct s; reflexivity. Qed.

(** The attribute of a piece that starts with a keyword. *)
Ltac keyword_of :=
  unfold Tail.attr_of; simpl; rewrite ?prefix_empty; reflexivity.

Lemma attr_of_yield (o : Frm.TableOptions) (a : Tail.attr) (b : bool) (s : string) :
  Tail.attr_of s = Some a -> b = Tail.is_set o a ->
  map Tail.attr_of (Frm.yield_if b s) = map Some (List.filter (Tail.is_set o) [a]).
Proof.
  intros Hs ->. unfold Frm.yield_if. simpl.
  destruct (Tail.is_set o a); simpl; [rewrite Hs|]; reflexivity.
Qed.

(** The keywords of the pieces of the tail are those of the attributes that
    are set, in the order of [Tail.rendering_order]. *)
Lemma tail_keywords (o : Frm.TableOptions) :
  map Tail.attr_of (Frm.attributes o)
  = map Some (List.filter (Tail.is_set o) Tail.rendering_order).
Proof.
  unfold Frm.attributes.
  rewrite !map_app.
  change Tail.rendering_order with
    ([Tail.connection] ++ [Tail.engine] ++ [Tail.charset; Tail.collate] ++ [Tail.min_rows]
     ++ [Tail.max_rows] ++ [Tail.avg_row_length] ++ [Tail.pack_keys]
     ++ [Tail.stats_persistent] ++ [Tail.checksum] ++ [Tail.delay_key_write]
     ++ [Tail.row_format] ++ [Tail.key_block_size] ++ [Tail.comment] ++ [Tail.partitions]).
  rewrite !List.filter_app, !map_app.
  repeat (f_equal; [ | ]);
    try (apply attr_of_yield; [keyword_of | reflexivity]).
  - destruct (Frm.connection o) as [c|] eqn:E.
    + apply attr_of_yield; [keyword_of | simpl; rewrite E; reflexivity].
    + simpl. rewrite E. reflexivity.
  - destruct (Frm.engine o) as [c|] eqn:E.
    + apply attr_of_yield; [keyword_of | simpl; rewrite E; reflexivity].
    + simpl. rewrite E. reflexivity.
  - simpl. destruct (Frm.charset o) as [cs|] eqn:E; simpl; [| reflexivity].
    destruct (Frm.is_default cs); simpl; f_equal; try keyword_of; f_equal; keyword_of.
  - simpl. destruct (Frm.pack_keys o); simpl; [f_equal; keyword_of | reflexivity].
  - simpl. destruct (Frm.stats_persistent o); simpl; [f_equal; keyword_of | reflexivity].
  - destruct (Frm.comment o) as [c|] eqn:E.
    + apply attr_of_yield; [keyword_of | simpl; rewrite E; reflexivity].
    + simpl. rewrite E. reflexivity.
  - destruct (Frm.partitions o) as [c|] eqn:E.
    + apply attr_of_yield; [keyword_of | simpl; rewrite E; reflexivity].
    + simpl. rewrite E. reflexivity.
Qed.

Lemma rendering_order_complete (a : Tail.attr) : In a Tail.rendering_order.
Proof. destruct a; simpl; tauto. Qed.

(** An attribute has a piece in the tail exactly when it is set. *)
Lemma tail_member (o : Frm.TableOptions) (a : Tail.attr) :
  In (Some a) (map Tail.attr_of (Frm.attributes o)) <-> Tail.is_set o a = true.
Proof.
  rewrite tail_keywords, in_map_iff. split.
  - intros (b & [= ->] & Hin). apply List.filter_In in Hin. tauto.
  - intros Hs. exists a. split; [reflexivity |].
    apply List.filter_In. split; [apply rendering_order_complete | exact Hs].
Qed.

(** C5: the pieces of the rendered tail are, in the order connection,
    engine, charset, collate, min_rows, max_rows, avg_row_length, pack_keys,
    stats_persistent, checksum, delay_key_write, row_format, key_block_size,
    comment, partitions, those of the attributes whose value is set: the
    COLLATE clause is there exactly when the character set is not a default
    collation, the row format when it is not DEFAULT, and an attribute is
    there exactly when it is set. *)
Theorem option_tail_order (o : Frm.TableOptions) :
  Frm.options_str o = Py.join " " (Frm.attributes o)
  /\ map Tail.attr_of (Frm.attributes o)
     = map Some (List.filter (Tail.is_set o) Tail.rendering_order)
  /\ forall a, In (Some a) (map Tail.attr_of (Frm.attributes o)) <-> Tail.is_set o a = true.
Proof.
  split; [reflexivity |]. split; [apply tail_keywords | apply tail_member].
Qed.

Section Engine.
Context {Key : Type} `{!Frm.Collaborators Key}.


Lemma truthy_true (s : string) : Py.truthy s = true <-> s <> EmptyString.
Proof.
  unfold Py.truthy. rewrite negb_true_iff. apply String.eqb_neq.
Qed.

Lemma read_extrainfo_empty (extrainfo : Frm.ByteReader) :
  Frm.getvalue extrainfo = EmptyString ->
  Frm.read_extrainfo extrainfo = Ok (None, None, None, extrainfo).
Proof.
  intros He. unfold Frm.read_extrainfo. rewrite He. reflexivity.
Qed.

Lemma read_extrainfo_strings (extrainfo r : Frm.ByteReader)
    (connection engine partition_info : option string) :
  Frm.getvalue extrainfo <> EmptyString ->
  Frm.read_extrainfo extrainfo = Ok (connection, engine, partition_info, r) ->
  exists c r1 e r2 p r3,
    Frm.bytes_prefix16 extrainfo = Ok (c, r1)
    /\ Frm.bytes_prefix16 r1 = Ok (e, r2)
    /\ Frm.bytes_prefix32 r2 = Ok (p, r3)
    /\ Frm.skip r3 2 = Ok r
    /\ connection = Some c /\ engine = Some e /\ partition_info = Some p.
Proof.
  intros He Hr. unfold Frm.read_extrainfo in Hr.
  apply truthy_true in He. rewrite He in Hr.
  bind_inv Hr. injection Hr as <- <- <- <-.
  repeat eexists; eauto.
Qed.

(** C4: the engine of a table is the name of the legacy type at offset 0x03
    when the extra section gives no engine, the name of the legacy type at
    offset 0x3d, with the partition clause kept, when it gives the engine
    "partition", and the engine it gives otherwise; an empty extra section
    gives no connection, no engine and no partition clause. *)
Theorem engine_resolution (data : Frm.ByteReader) (context : Frm.PackedFrmData)
    (t : Frm.Table Key) (r : Frm.ByteReader) :
  Frm.from_data data context = Ok (t, r) ->
  exists connection engine partition_info,
    Frm.read_extrainfo (Frm.extrainfo context) = Ok (connection, engine, partition_info, r)
    /\ Frm.connection (Frm.options t) = connection
    /\ Frm.partitions (Frm.options t) = partition_info
    /\ (Frm.getvalue (Frm.extrainfo context) = EmptyString ->
        connection = None /\ engine = None /\ partition_info = None)
    /\ (Frm.getvalue (Frm.extrainfo context) <> EmptyString ->
        exists c r1 e r2 p r3,
          Frm.bytes_prefix16 (Frm.extrainfo context) = Ok (c, r1)
          /\ Frm.bytes_prefix16 r1 = Ok (e, r2)
          /\ Frm.bytes_prefix32 r2 = Ok (p, r3)
          /\ Frm.skip r3 2 = Ok r
          /\ connection = Some c /\ engine = Some e /\ partition_info = Some p)
    /\ (engine = None \/ engine = Some EmptyString ->
        exists b m, Frm.uint8_at data 0x03 Frm.SEEK_SET = Ok b
                    /\ Frm.LegacyDBType b = Ok m
                    /\ Frm.engine (Frm.options t) = Some (Frm.name m))
    /\ (engine = Some "partition" ->
        exists b m, Frm.uint8_at data 0x3d Frm.SEEK_SET = Ok b
                    /\ Frm.LegacyDBType b = Ok m
                    /\ Frm.engine (Frm.options t) = Some (Frm.name m))
    /\ (forall e, engine = Some e -> e <> EmptyString -> e <> "partition" ->
        Frm.engine (Frm.options t) = Some e).
Proof.
  intros Hd.
  destruct (from_data_inv _ _ _ _ Hd)
    as (cs & v & ho & hopt & connection & engine & partition_info & e & _ & _ & _ & _ & _ & _
        & Hread & Hres & Hc & He & Hp & _).
  exists connection, engine, partition_info.
  split; [exact Hread |]. split; [exact Hc |]. split; [exact Hp |].
  split.
  { intros Hempty. rewrite (read_extrainfo_empty _ Hempty) in Hread.
    injection Hread as <- <- <- _. auto. }
  split.
  { intros Hne. exact (read_extrainfo_strings _ _ _ _ _ Hne Hread). }
  rewrite He. unfold Frm.resolve_engine in Hres.
  split; [| split].
  - intros [-> | ->]; simpl in Hres; bind_inv Hres; injection Hres as <-; eauto.
  - intros ->. simpl in Hres. bind_inv Hres. injection Hres as <-. eauto.
  - intros e' -> Hne Hnp.
    apply truthy_true in Hne. rewrite Hne in Hres. simpl in Hres.
    apply String.eqb_neq in Hnp. rewrite Hnp in Hres. injection Hres as <-. reflexivity.
Qed.

End Engine.

(** The file [p.frm] of a partitioned table: the engine is the one named at
    offset 0x3d, and the partition clause is kept. *)
Lemma engine_resolution_witness :
  exists data fo packed t r,
    Frm.read_frm "/var/lib/mysql/app/p.frm" Sample.p_frm = Ok (data, fo, packed)
    /\ Frm.from_data (H := Sample.decoder) data packed = Ok (t, r)
    /\ Frm.engine (Frm.options t) = Some "MyISAM"
    /\ Frm.partitions (Frm.options t) = Some "PARTITION BY HASH (id)".
Proof.
  eexists _, _, _, _, _.
  split; [vm_compute; reflexivity |].
  match goal with
  | |- ?P /\ _ => assert (Hfd : P) by (vm_compute; reflexivity)
  end.
  split; [exact Hfd |].
  destruct (engine_resolution (H := Sample.decoder) _ _ _ _ Hfd)
    as (connection & engine & partition_info & Hread & _ & Hp & _ & _ & _ & Hpart & _).
  vm_compute in Hread. injection Hread as <- <- <-.
  split.
  - destruct (Hpart eq_refl) as (b & m & Hb & Hm & ->).
    vm_compute in Hb. injection Hb as <-.
    vm_compute in Hm. injection Hm as <-. reflexivity.
  - rewrite Hp. reflexivity.
Defined.

(** A piece of the tail that is not the one of [a] has another keyword. *)
Ltac other_keyword H :=
  unfold Tail.attr_of in H; simpl in H; rewrite ?prefix_empty in H; discriminate H.

Lemma yield_if_In (b : bool) (s x : string) :
  In x (Frm.yield_if b s) -> b = true /\ x = s.
Proof.
  unfold Frm.yield_if. destruct b; simpl; [intros [<- | []]; auto | intros []].
Qed.

(** The pieces of the tail with the keyword of a flag. *)
Lemma flag_pieces (o : Frm.TableOptions) (s : string) :
  In s (Frm.attributes o) ->
  (Tail.attr_of s = Some Tail.checksum -> Frm.checksum o = true /\ s = "CHECKSUM=1")
  /\ (Tail.attr_of s = Some Tail.delay_key_write ->
      Frm.delay_key_write o = true /\ s = "DELAY_KEY_WRITE=1").
Proof.
  unfold Frm.attributes. rewrite !in_app_iff.
  intros Hin.
  repeat match type of Hin with
         | _ \/ _ => destruct Hin as [Hin | Hin]
         | In _ (match ?x with _ => _ end) => destruct x; simpl in Hin
         | In _ (Frm.yield_if _ _) => apply yield_if_In in Hin; destruct Hin as [Hb ->]
         | In _ (_ :: _) => simpl in Hin
         | In _ [] => destruct Hin
         | False => destruct Hin
         | _ = s => subst s
         end;
    split; intros Hk; try (other_keyword Hk); auto.
Qed.

Section ZeroValues.
Context {Key : Type} `{!Frm.Collaborators Key}.

(** C9: a number of rows, an average row length or a key block size that is
    zero has no piece in the tail; PACK_KEYS and STATS_PERSISTENT are
    rendered with the value 0, which is what the NO_PACK_KEYS and
    NO_STATS_PERSISTENT bits decode to; CHECKSUM and DELAY_KEY_WRITE are
    rendered only when they are true, and then with the value 1. *)
Theorem zero_values_in_tail (o : Frm.TableOptions) :
  (Frm.min_rows o = 0 -> ~ In (Some Tail.min_rows) (map Tail.attr_of (Frm.attributes o)))
  /\ (Frm.max_rows o = 0 -> ~ In (Some Tail.max_rows) (map Tail.attr_of (Frm.attributes o)))
  /\ (Frm.avg_row_length o = 0 ->
      ~ In (Some Tail.avg_row_length) (map Tail.attr_of (Frm.attributes o)))
  /\ (Frm.key_block_size o = 0 ->
      ~ In (Some Tail.key_block_size) (map Tail.attr_of (Frm.attributes o)))
  /\ (Frm.pack_keys o = Some 0 -> In "PACK_KEYS=0" (Frm.attributes o))
  /\ (Frm.stats_persistent o = Some 0 -> In "STATS_PERSISTENT=0" (Frm.attributes o))
  /\ (forall s, In s (Frm.attributes o) -> Tail.attr_of s = Some Tail.checksum ->
      Frm.checksum o = true /\ s = "CHECKSUM=1")
  /\ (forall s, In s (Frm.attributes o) -> Tail.attr_of s = Some Tail.delay_key_write ->
      Frm.delay_key_write o = true /\ s = "DELAY_KEY_WRITE=1")
  /\ (forall data context (t : Frm.Table Key) r,
      Frm.from_data data context = Ok (t, r) ->
      exists v ho,
        Frm.uint16_at data 0x1e Frm.SEEK_SET = Ok v /\ Frm.HaOption v = Ok ho
        /\ (Frm.PACK_KEYS ho = false -> Frm.NO_PACK_KEYS ho = true ->
            Frm.pack_keys (Frm.options t) = Some 0)
        /\ (Frm.STATS_PERSISTENT ho = false -> Frm.NO_STATS_PERSISTENT ho = true ->
            Frm.stats_persistent (Frm.options t) = Some 0)
        /\ Frm.checksum (Frm.options t) = Frm.CHECKSUM ho
        /\ Frm.delay_key_write (Frm.options t) = Frm.DELAY_KEY_WRITE ho).
Proof.
  repeat split.
  - intros Hz Hin. apply tail_member in Hin. simpl in Hin. rewrite Hz in Hin. discriminate.
  - intros Hz Hin. apply tail_member in Hin. simpl in Hin. rewrite Hz in Hin. discriminate.
  - intros Hz Hin. apply tail_member in Hin. simpl in Hin. rewrite Hz in Hin. discriminate.
  - intros Hz Hin. apply tail_member in Hin. simpl in Hin. rewrite Hz in Hin. discriminate.
  - intros Hp. unfold Frm.attributes. rewrite Hp. rewrite !in_app_iff.
    do 6 right. left. simpl. auto.
  - intros Hp. unfold Frm.attributes. rewrite Hp. rewrite !in_app_iff.
    do 7 right. left. simpl. auto.
  - apply (flag_pieces o s); assumption.
  - apply (flag_pieces o s); assumption.
  - apply (flag_pieces o s); assumption.
  - apply (flag_pieces o s); assumption.
  - intros data context t r Hd.
    destruct (from_data_inv _ _ _ _ Hd)
      as (cs & v & ho & hopt & connection & engine & partition_info & e & _ & _ & _ & _ & Hv
          & Hho & _ & _ & _ & _ & _ & _ & Hpk & Hsp & Hck & Hdk).
    exists ho, hopt. repeat split; try assumption.
    + intros Hp Hn. rewrite Hpk, Hp, Hn. reflexivity.
    + intros Hp Hn. rewrite Hsp, Hp, Hn. reflexivity.
Qed.

End ZeroValues.

(** ** Properties of [parse] and of [unpack_columns] *)

Lemma traverse_length {A B} (f : A -> result B) (l : list A) (l' : list B) :
  traverse f l = Ok l' -> length l' = length l.
Proof.
  revert l'. induction l as [|a l IH]; intros l' Ht; simpl in Ht.
  - injection Ht as <-. reflexivity.
  - bind_inv Ht. injection Ht as <-. simpl. f_equal. apply IH. assumption.
Qed.


Lemma read_reader (r r' : Frm.ByteReader) (n : Z) (b : string) :
  Frm.read r n = Ok (b, r') -> Frm.buf r' = Frm.buf r.
Proof.
  unfold Frm.read. intros Hr. bind_inv Hr. injection Hr as _ <-. reflexivity.
Qed.

(** The [with] block of [parse] leaves the reader of the file as it was. *)
Lemma read_column_data_reader (data data' : Frm.ByteReader) (pc : Frm.PackedColumnData)
    (mo cc nf nl ll cl dl do : Z) :
  Frm.read_column_data data mo cc nf nl ll cl dl do = Ok (pc, data') ->
  data' = data /\ Frm.count pc = cc.
Proof.
  unfold Frm.read_column_data, Frm.with_offset. intros Hr.
  apply bind_ok in Hr. destruct Hr as (r1 & Hseek & Hr).
  apply bind_ok in Hr. destruct Hr as ([pc' r2] & Hbody & Hr).
  injection Hr as <- <-.
  unfold Frm.seek in Hseek. destruct (Frm.in_buffer data mo 0); [| discriminate Hseek].
  injection Hseek as <-.
  bind_inv Hbody. injection Hbody as <- <-.
  repeat match goal with
         | E : Frm.read _ _ = Ok _ |- _ => apply read_reader in E; simpl in E
         end.
  split; [| reflexivity].
  destruct data as [bf ps]. simpl in *. unfold Frm.tell. simpl. f_equal. congruence.
Qed.

(** What the first half of [parse] returns. *)
Lemma read_frm_inv (path content : string) (data : Frm.ByteReader) (fo : Z)
    (packed : Frm.PackedFrmData) :
  Frm.read_frm path content = Ok (data, fo, packed) ->
  data = {| Frm.buf := content; Frm.pos := 2 |}
  /\ (exists names_length,
        Frm.uint16_at data 0x04 Frm.SEEK_SET = Ok names_length
        /\ Frm.uint32_at data (64 + names_length) Frm.SEEK_SET = Ok fo)
  /\ Frm.uint16_at data (fo + 258) Frm.SEEK_SET = Ok (Frm.count (Frm.pf_columns packed))
  /\ (exists keyinfo_offset keyinfo_length defaults_length extrainfo_length extra,
        Frm.uint16_at data 0x06 Frm.SEEK_SET = Ok keyinfo_offset
        /\ Frm.uint16_at data 0x10 Frm.SEEK_SET = Ok defaults_length
        /\ Frm.uint32_at data 0x37 Frm.SEEK_SET = Ok extrainfo_length
        /\ Frm.read_at data extrainfo_length
             (keyinfo_offset + keyinfo_length + defaults_length) = Ok extra
        /\ Frm.extrainfo packed = Frm.reader_of extra).
Proof.
  unfold Frm.read_frm. intros Hr.
  apply bind_ok in Hr. destruct Hr as ([m d0] & Hm & Hr).
  destruct (negb (m =? Frm.magic)%string); [discriminate Hr |].
  bind_inv Hr. injection Hr as <- <- <-.
  match goal with
  | E : Frm.read_column_data _ _ _ _ _ _ _ _ _ = Ok _ |- _ =>
      apply read_column_data_reader in E; destruct E as [-> Hcount]
  end.
  assert (Hd0 : d0 = {| Frm.buf := content; Frm.pos := 2 |}).
  { unfold Frm.read in Hm. bind_inv Hm. injection Hm as _ <-. reflexivity. }
  simpl. rewrite Hcount.
  split; [exact Hd0 |].
  split; [eauto |]. split; [assumption |].
  repeat eexists; eauto.
Qed.

Section Columns.
Context {Key : Type} `{!Frm.Collaborators Key}.

(** Every turn of the loop yields one column. *)
Lemma unpack_columns_loop_length (labels : list (list string)) (names : list string) :
  forall (st : Frm.loop_state Key) (fieldnr : Z) (cols : list Frm.Column),
    Frm.unpack_columns_loop labels st fieldnr names = Ok cols ->
    length cols = length names.
Proof.
  induction names as [|n names IH]; intros st fieldnr cols Hl; simpl in Hl.
  - injection Hl as <-. reflexivity.
  - bind_inv Hl. injection Hl as <-. simpl. f_equal. eapply IH. eassumption.
Qed.

Lemma unpack_columns_length (pc : Frm.PackedColumnData) (table : Frm.Table Key)
    (cols : list Frm.Column) :
  Frm.unpack_columns pc table = Ok cols ->
  exists names, Frm.unpack_column_names (Frm.pc_names pc) = Ok names
                /\ length cols = length names.
Proof.
  unfold Frm.unpack_columns. intros Hu. bind_inv Hu.
  eexists. split; [eassumption |].
  eapply unpack_columns_loop_length. eassumption.
Qed.

(** What the second half of [parse] does with the sections. *)
Lemma parse_inv (path content : string) (t : Frm.Table Key) :
  Frm.parse path content = Ok t ->
  exists data fo packed t0 r0 indexes r1 table_comment r2,
    Frm.read_frm path content = Ok (data, fo, packed)
    /\ Frm.from_data data packed = Ok (t0, r0)
    /\ Frm.unpack_columns (Frm.pf_columns packed) t0 = Ok (Frm.columns t)
    /\ Frm.unpack_keys (Frm.keyinfo packed) (Frm.columns t) r0 = Ok (indexes, r1)
    /\ Frm.read_table_comment data r1 fo = Ok (table_comment, r2)
    /\ Frm.table_charset t = Frm.table_charset t0
    /\ (if Py.truthy table_comment
        then exists c, Frm.decode (Frm.charset_name (Frm.table_charset t0)) table_comment = Ok c
                       /\ Frm.comment (Frm.options t) = Some c
        else Frm.comment (Frm.options t) = Frm.comment (Frm.options t0)).
Proof.
  unfold Frm.parse. intros Hp.
  apply bind_ok in Hp. destruct Hp as ([[data fo] packed] & Hr & Hp).
  apply bind_ok in Hp. destruct Hp as ([t0 r0] & Hd & Hp).
  apply bind_ok in Hp. destruct Hp as (cols & Hc & Hp).
  apply bind_ok in Hp. destruct Hp as ([indexes r1] & Hk & Hp).
  apply bind_ok in Hp. destruct Hp as ([table_comment r2] & Ht & Hp).
  apply bind_ok in Hp. destruct Hp as (t1 & Hs & Hp).
  injection Hp as <-. simpl.
  exists data, fo, packed, t0, r0, indexes, r1, table_comment, r2.
  repeat (split; [assumption |]).
  destruct (Py.truthy table_comment).
  - apply bind_ok in Hs. destruct Hs as (c & Hdec & Hs). injection Hs as <-.
    split; [reflexivity |]. exists c. split; [assumption | reflexivity].
  - injection Hs as <-. split; reflexivity.
Qed.

(** C3: when the names section of a file holds as many names as its header
    counts columns, the table that [parse] returns has that many columns. *)
Theorem parse_column_count (path content : string) (t : Frm.Table Key)
    (data : Frm.ByteReader) (fo : Z) (packed : Frm.PackedFrmData) :
  Frm.parse path content = Ok t ->
  Frm.read_frm path content = Ok (data, fo, packed) ->
  Frm.names_match_count (Frm.pf_columns packed) ->
  exists column_count,
    Frm.uint16_at data (fo + 258) Frm.SEEK_SET = Ok column_count
    /\ Frm.count (Frm.pf_columns packed) = column_count
    /\ Z.of_nat (length (Frm.columns t)) = column_count.
Proof.
  intros Hp Hr (names & Hn & Hc).
  destruct (parse_inv _ _ _ Hp)
    as (data' & fo' & packed' & t0 & r0 & ix & r1 & tc & r2 & Hr' & _ & Hu & _).
  rewrite Hr in Hr'. injection Hr' as <- <- <-.
  destruct (read_frm_inv _ _ _ _ _ Hr) as (_ & _ & Hcount & _).
  exists (Frm.count (Frm.pf_columns packed)).
  split; [exact Hcount |]. split; [reflexivity |].
  destruct (unpack_columns_length _ _ _ Hu) as (names' & Hn' & Hlen).
  rewrite Hn in Hn'. injection Hn' as <-.
  rewrite Hlen. exact Hc.
Qed.

End Columns.

(** The file [t.frm]: two names, two columns counted, two columns. *)
Lemma parse_column_count_witness :
  exists t data fo packed,
    Frm.parse (H := Sample.decoder) "/var/lib/mysql/app/t.frm" Sample.t_frm = Ok t
    /\ Frm.read_frm "/var/lib/mysql/app/t.frm" Sample.t_frm = Ok (data, fo, packed)
    /\ Frm.names_match_count (H := Sample.decoder) (Frm.pf_columns packed)
    /\ Frm.uint16_at data (fo + 258) Frm.SEEK_SET = Ok 2
    /\ Z.of_nat (length (Frm.columns t)) = 2.
Proof.
  eexists _, _, _, _.
  match goal with
  | |- ?P /\ ?Q /\ ?R /\ _ =>
      assert (Hp : P) by (vm_compute; reflexivity);
      assert (Hr : Q) by (vm_compute; reflexivity);
      assert (Hn : R) by (eexists; split; vm_compute; reflexivity)
  end.
  split; [exact Hp |]. split; [exact Hr |]. split; [exact Hn |].
  destruct (parse_column_count (H := Sample.decoder) _ _ _ _ _ _ Hp Hr Hn)
    as (cc & Hu & Hc & Hl).
  vm_compute in Hc. subst cc. split; assumption.
Defined.

(** ** Labels *)



Section Labels.
Context {Key : Type} `{!Frm.Collaborators Key}.



End Labels.


(** ** The table comment *)

(** A length-prefixed string is read from a buffer that is not empty. *)
Lemma bytes_prefix_nonempty (width : Z) (r r' : Frm.ByteReader) (b : string) :
  0 < width -> Frm.bytes_prefix width r = Ok (b, r') -> Frm.getvalue r <> EmptyString.
Proof.
  intros Hw Hb. unfold Frm.bytes_prefix, Frm.uint_at, Frm.read_at in Hb.
  destruct (Frm.in_buffer r (Frm.pos r + 0) width) eqn:Hin; [| discriminate Hb].
  unfold Frm.in_buffer in Hin. apply andb_true_iff in Hin. destruct Hin as [Hin Hlen].
  apply andb_true_iff in Hin. destruct Hin as [Hpos _].
  apply Z.leb_le in Hpos, Hlen.
  unfold Frm.getvalue. intros He. rewrite He in Hlen. unfold Py.len in Hlen. simpl in Hlen. lia.
Qed.

Section Comment.
Context {Key : Type} `{!Frm.Collaborators Key}.


End Comment.



(** ** Statements of the splitter that keep a relation *)

Section Preservation.
Context `{!Split.Collaborators}.
Variable R : Split.state -> Split.state -> Prop.
Hypothesis R_refl : forall st, R st st.
Hypothesis R_trans : forall a b c, R a b -> R b c -> R a c.
Hypothesis R_log : forall r st, R st (Split.add_log r st).
Hypothesis R_effect : forall e st, R st (Split.add_effect e st).

Lemma preserves_ret {A} (a : A) : Split.preserves R (mret a).
Proof. intros st. apply R_refl. Qed.

Lemma preserves_raise {A} (e : exn) : Split.preserves R (Split.raise (A := A) e).
Proof. intros st. apply R_refl. Qed.

Lemma preserves_lift {A} (r : result A) : Split.preserves R (Split.lift r).
Proof. intros st. apply R_refl. Qed.

Lemma preserves_get {A} (f : Split.state -> A) : Split.preserves R (Split.get f).
Proof. intros st. apply R_refl. Qed.

Lemma preserves_read_db : Split.preserves R Split.read_db.
Proof. intros st. unfold Split.read_db. destruct (Split.db st); apply R_refl. Qed.

Lemma preserves_modify (f : Split.state -> Split.state) :
  (forall st, R st (f st)) -> Split.preserves R (Split.modify f).
Proof. intros Hf st. apply Hf. Qed.

Lemma preserves_bind {A B} (m : Split.M A) (k : A -> Split.M B) :
  Split.preserves R m -> (forall a, Split.preserves R (k a)) ->
  Split.preserves R (m ≫= k).
Proof.
  intros Hm Hk st. specialize (Hm st).
  unfold mbind, Split.M_bind.
  destruct (m st) as [st' [a|e]]; simpl in *; [| exact Hm].
  eapply R_trans; [exact Hm | apply Hk].
Qed.

Lemma preserves_logging (r : Split.log_record) : Split.preserves R (Split.logging r).
Proof. apply preserves_modify. apply R_log. Qed.

Lemma preserves_perform (e : Split.effect) : Split.preserves R (Split.perform e).
Proof. apply preserves_modify. apply R_effect. Qed.

Lemma preserves_open_file (directory file : string) :
  Split.preserves R (Split.open_file directory file).
Proof.
  intros st. unfold Split.open_file.
  destruct (Split.can_open directory (Split.effects st) file); apply R_refl.
Qed.

Lemma preserves_output (directory cmd name mode : string) (items : list (option string)) :
  Split.preserves R (Split.output directory cmd name items mode).
Proof.
  unfold Split.output.
  apply preserves_bind; [apply preserves_lift | intros ext].
  apply preserves_bind; [apply preserves_open_file | intros _].
  apply preserves_bind; [apply preserves_perform | intros _].
  destruct (Split.all_strings items); [apply preserves_ret | apply preserves_raise].
Qed.

End Preservation.

(** Breaks a statement into the statements it is made of. *)
Ltac preserve R_refl R_trans R_log R_effect :=
  repeat first
    [ apply (preserves_ret _ R_refl)
    | apply (preserves_raise _ R_refl)
    | apply (preserves_lift _ R_refl)
    | apply (preserves_get _ R_refl)
    | apply (preserves_read_db _ R_refl)
    | apply (preserves_logging _ R_log)
    | apply (preserves_perform _ R_effect)
    | apply (preserves_open_file _ R_refl)
    | apply (preserves_output _ R_refl R_trans R_effect)
    | apply (preserves_bind _ R_trans); [| intros ?]
    | progress cbv zeta
    | match goal with
      | |- Split.preserves _ (if ?b then _ else _) => destruct b
      | |- Split.preserves _ (match ?x with _ => _ end) => destruct x
      | |- Split.preserves _ (let '(_, _) := ?x in _) => destruct x
      end ].

Lemma same_refl st : Split.same_post_data st st.
Proof. reflexivity. Qed.
Lemma same_trans a b c :
  Split.same_post_data a b -> Split.same_post_data b c -> Split.same_post_data a c.
Proof. unfold Split.same_post_data. congruence. Qed.
Lemma same_log r st : Split.same_post_data st (Split.add_log r st).
Proof. reflexivity. Qed.
Lemma same_effect e st : Split.same_post_data st (Split.add_effect e st).
Proof. reflexivity. Qed.

Lemma none_refl st : Split.none_pending st st.
Proof. intros H. exact H. Qed.
Lemma none_trans a b c :
  Split.none_pending a b -> Split.none_pending b c -> Split.none_pending a c.
Proof. unfold Split.none_pending. auto. Qed.
Lemma none_log r st : Split.none_pending st (Split.add_log r st).
Proof. intros H. exact H. Qed.
Lemma none_effect e st : Split.none_pending st (Split.add_effect e st).
Proof. intros H. exact H. Qed.

Lemma log_refl st : Split.log_extends st st.
Proof. exists []. symmetry. apply app_nil_r. Qed.
Lemma log_trans a b c :
  Split.log_extends a b -> Split.log_extends b c -> Split.log_extends a c.
Proof.
  intros [l1 H1] [l2 H2]. exists (l1 ++ l2). rewrite H2, H1. symmetry. apply app_assoc.
Qed.
Lemma log_log r st : Split.log_extends st (Split.add_log r st).
Proof. exists [r]. reflexivity. Qed.
Lemma log_effect e st : Split.log_extends st (Split.add_effect e st).
Proof. exists []. symmetry. apply app_nil_r. Qed.

Ltac same_post_data :=
  preserve same_refl same_trans same_log same_effect;
  try (apply preserves_modify; intros ?; reflexivity).
Ltac none_pending :=
  preserve none_refl none_trans none_log none_effect;
  try (apply preserves_modify; intros ? ?; solve [assumption | reflexivity]).
Ltac log_extends :=
  preserve log_refl log_trans log_log log_effect;
  try (apply preserves_modify; intros ?; exists []; symmetry; apply app_nil_r).

Section DriverProps.
Context `{!Split.Collaborators}.
Variables (directory cmd : string) (defer_indexes defer_constraints : bool).
Variable filter_cre : string -> bool.

Local Abbreviation on_section :=
  (Split.on_section directory cmd defer_indexes defer_constraints filter_cre).




End DriverProps.

(** ** The target version *)

Section Target.
Context `{!Split.Collaborators}.







End Target.

(** Scenario S3 of the specification: with the target 4.1 the warnings are
    logged, the run returns 0 and the definition of the table is written as
    it is, its key included. *)
Example unknown_target_run :
  let '(st, r) := Split.split_mysqldump (H := Sample.splitter) Sample.old_config
                    [Sample.dump_header; Sample.table_definition "t"; Sample.table_data "t"] in
  r = Ok 0
  /\ firstn 2 (Split.log st)
     = [(Split.WARNING, "Unknown target version '4.1'"); (Split.WARNING, "Indexes will not be deferred")]
  /\ Split.apply_effects ∅ (Split.effects st) !! "./app/t.schema.sql"
     = Some [("cat", Py.join EmptyString (snd Sample.dump_header)
                     +:+ Py.join EmptyString (snd (Sample.table_definition "t")))].
Proof. vm_compute. repeat split. Qed.

(** ** The pending ALTER TABLE statement *)

Section Pending.
Context `{!Split.Collaborators}.
Variables (directory cmd : string) (defer_indexes defer_constraints : bool).
Variable filter_cre : string -> bool.

Local Abbreviation on_section :=
  (Split.on_section directory cmd defer_indexes defer_constraints filter_cre).

Lemma bind_run {A B} (m : Split.M A) (k : A -> Split.M B) (st : Split.state) :
  (m ≫= k) st
  = match m st with
    | (st', Ok a) => k a st'
    | (st', Raise e) => (st', Raise e)
    end.
Proof. reflexivity. Qed.



Lemma all_strings_map (l : list string) : Split.all_strings (map Some l) = true.
Proof.
  unfold Split.all_strings. apply forallb_forall. intros x Hx.
  apply in_map_iff in Hx. destruct Hx as (y & <- & _). reflexivity.
Qed.

Lemma written_map (l : list string) : Split.written (map Some l) = l.
Proof. induction l as [|x l IH]; simpl; [reflexivity | rewrite IH; reflexivity]. Qed.







End Pending.


(** The run behind it: the statement for [t1] ends the file of [t2]. *)
Example alter_of_t1_in_data_of_t2 :
  let '(st, r) := Split.split_mysqldump (H := Sample.splitter) Split.default_config
                    [Sample.dump_header; Sample.table_definition "t1"; Sample.table_data "t2"] in
  r = Ok 0
  /\ exists items,
       last (Split.effects st) = Some (Split.Output "./app/t2.data.sql.gz" "wb" "gzip -1" items)
       /\ skipn (length items - 2) items
          = ["ALTER TABLE `t1` ADD KEY `i_v` (`v`);"; String "010" EmptyString].
Proof. vm_compute. split; [reflexivity |]. eexists. split; reflexivity. Qed.

(** ** The file of the views *)

(** C2 fails on the code: the file that is emptied before the first view is
    the one named without the extension of the filter command, and no file
    is emptied before the first view of a later database.  With the default
    filter the file that receives the views of [app] keeps what an earlier
    run left in it; with a filter that adds no extension the file of the
    second database, [b], does. *)
Theorem views_file_keeps_stale_content :
  let gz := Split.split_mysqldump (H := Sample.splitter) Split.default_config
              Sample.dump_with_view in
  let cat := Split.split_mysqldump (H := Sample.splitter) Sample.cat_config
               Sample.dump_of_two_databases in
  snd gz = Ok 0
  /\ Split.truncated_files (Split.effects (fst gz)) = ["./app/views.sql"]
  /\ Split.opened_files "ab" (Split.effects (fst gz)) = ["./app/views.sql.gz"]
  /\ Split.apply_effects {[ "./app/views.sql.gz" := Sample.stale ]} (Split.effects (fst gz))
     !! "./app/views.sql.gz"
     = Some (Sample.stale
             ++ [("gzip -1", Py.join EmptyString (snd (Sample.view_definition "v")))])
  /\ snd cat = Ok 0
  /\ Split.truncated_files (Split.effects (fst cat)) = ["./a/views.sql"]
  /\ Split.opened_files "ab" (Split.effects (fst cat)) = ["./a/views.sql"; "./b/views.sql"]
  /\ Split.apply_effects {[ "./b/views.sql" := Sample.stale ]} (Split.effects (fst cat))
     !! "./b/views.sql"
     = Some (Sample.stale ++ [("cat", Py.join EmptyString (snd (Sample.view_definition "w")))]).
Proof.
  vm_compute. repeat split.
Qed.

(** * Further properties *)

(** ** The extension of the output files *)

Lemma lstrip_no_space (c : ascii) (s : string) :
  Py.is_space c = false -> Py.lstrip (String c s) = String c s.
Proof. intros Hc. simpl. rewrite Hc. reflexivity. Qed.

Lemma take_word_prefix (word rest : string) :
  Count.no_space word = true ->
  Py.take_word (word +:+ String " " rest) = word.
Proof.
  unfold Count.no_space.
  induction word as [|c word IH]; simpl; intros Hw; [reflexivity |].
  apply andb_true_iff in Hw. destruct Hw as [Hc Hw].
  apply negb_true_iff in Hc. rewrite Hc. f_equal. apply IH. exact Hw.
Qed.

(** X1: the extension of the output files is chosen by the first word of the
    filter command alone: what follows that word is ignored. *)
Theorem cmd_to_ext_ignores_arguments (word args : string) :
  word <> EmptyString ->
  Count.no_space word = true ->
  Split.cmd_to_ext (word +:+ String " " args)
  = Ok (default EmptyString (Split.extensions !! word)).
Proof.
  intros Hne Hw. unfold Split.cmd_to_ext, Py.first_word.
  destruct word as [|c word]; [congruence |].
  assert (Hc : Py.is_space c = false).
  { unfold Count.no_space in Hw. simpl in Hw. apply andb_true_iff in Hw.
    destruct Hw as [Hc _]. apply negb_true_iff in Hc. exact Hc. }
  change (String c word +:+ String " " args) with (String c (word +:+ String " " args)).
  rewrite (lstrip_no_space _ _ Hc).
  change (String c (word +:+ String " " args)) with (String c word +:+ String " " args).
  rewrite (take_word_prefix _ _ Hw). reflexivity.
Qed.

Lemma cmd_to_ext_ignores_arguments_witness :
  Split.cmd_to_ext "gzip -1" = Ok ".gz".
Proof.
  exact (cmd_to_ext_ignores_arguments "gzip" "-1" ltac:(discriminate) eq_refl).
Defined.

(** The extension of a filter command is the one that the table gives for
    its first word, and the empty one when the table has no such word. *)
Lemma cmd_to_ext_values (cmd ext : string) :
  Split.cmd_to_ext cmd = Ok ext ->
  exists w, Py.first_word cmd = Ok w
            /\ (In (w, ext) [("gzip", ".gz"); ("pigz", ".gz"); ("bzip2", ".bz2");
                             ("pbzip2", ".bz2"); ("lzop", ".lzo"); ("xz", ".xz");
                             ("lzma", ".lzma")]
                \/ (~ In w ["gzip"; "pigz"; "bzip2"; "pbzip2"; "lzop"; "xz"; "lzma"]
                    /\ ext = EmptyString)).
Proof.
  unfold Split.cmd_to_ext. destruct (Py.first_word cmd) as [w|e]; [| discriminate].
  intros Hext. exists w. split; [reflexivity |].
  change (Ok (default EmptyString (Split.extensions !! w)) = Ok ext) in Hext.
  injection Hext as <-.
  destruct (Split.extensions !! w) as [e|] eqn:He.
  - left. unfold Split.extensions in He. apply elem_of_list_to_map_2 in He.
    apply list_elem_of_In in He. exact He.
  - right. split; [| reflexivity].
    unfold Split.extensions in He. apply not_elem_of_list_to_map_2 in He.
    intros Hin. apply He. apply list_elem_of_In. exact Hin.
Qed.

Lemma cmd_to_ext_six (cmd ext : string) :
  Split.cmd_to_ext cmd = Ok ext ->
  In ext [EmptyString; ".gz"; ".bz2"; ".lzo"; ".xz"; ".lzma"].
Proof.
  intros Hext. destruct (cmd_to_ext_values _ _ Hext) as (w & _ & [Hin | [_ ->]]).
  - simpl in Hin.
    destruct Hin as [Hin|[Hin|[Hin|[Hin|[Hin|[Hin|[Hin|[]]]]]]]];
      injection Hin as _ <-; simpl; tauto.
  - left. reflexivity.
Qed.

(** X2: a filter command without a word raises [IndexError]; any other one
    gives one of six extensions: the one that the table gives for the first
    word of the command, and the empty one when that word is not in the
    table. *)
Theorem cmd_to_ext_range (cmd : string) :
  (Py.lstrip cmd = EmptyString /\ Split.cmd_to_ext cmd = Raise IndexError)
  \/ (Py.lstrip cmd <> EmptyString
      /\ exists w ext,
           Py.first_word cmd = Ok w
           /\ Split.cmd_to_ext cmd = Ok ext
           /\ In ext [EmptyString; ".gz"; ".bz2"; ".lzo"; ".xz"; ".lzma"]
           /\ (In (w, ext) [("gzip", ".gz"); ("pigz", ".gz"); ("bzip2", ".bz2");
                            ("pbzip2", ".bz2"); ("lzop", ".lzo"); ("xz", ".xz");
                            ("lzma", ".lzma")]
               \/ (~ In w ["gzip"; "pigz"; "bzip2"; "pbzip2"; "lzop"; "xz"; "lzma"]
                   /\ ext = EmptyString))).
Proof.
  destruct (Py.lstrip cmd) as [|c w0] eqn:Hl.
  - left. split; [reflexivity |].
    unfold Split.cmd_to_ext, Py.first_word. rewrite Hl. reflexivity.
  - right. split; [discriminate |].
    destruct (Split.cmd_to_ext cmd) as [ext|e] eqn:Hext.
    + destruct (cmd_to_ext_values _ _ Hext) as (w & Hw & Hcase).
      exists w, ext. split; [exact Hw |]. split; [reflexivity |].
      split; [exact (cmd_to_ext_six _ _ Hext) | exact Hcase].
    + exfalso. unfold Split.cmd_to_ext, Py.first_word in Hext. rewrite Hl in Hext.
      discriminate Hext.
Qed.

(** ** Files that can be opened *)

Lemma append_empty (s : string) : s +:+ EmptyString = s.
Proof.
  induction s as [|c s IH]; [reflexivity |].
  change (String c (s +:+ EmptyString) = String c s). rewrite IH. reflexivity.
Qed.

Lemma append_assoc (a b c : string) : (a +:+ b) +:+ c = a +:+ (b +:+ c).
Proof.
  induction a as [|x a IH]; [reflexivity |].
  change (String x ((a +:+ b) +:+ c) = String x (a +:+ (b +:+ c))). rewrite IH. reflexivity.
Qed.

Lemma after_prefix_app (p s : string) : Py.after_prefix p (p +:+ s) = Some s.
Proof.
  induction p as [|x p IH]; [reflexivity |].
  change (Py.after_prefix (String x p) (String x (p +:+ s)) = Some s).
  simpl. rewrite Ascii.eqb_refl. exact IH.
Qed.

(** A text holds a slash when its first character is one or the rest
    holds one. *)
Lemma contains_slash_cons (c : ascii) (s : string) :
  Py.contains "/" (String c s) = Ascii.eqb c "/" || Py.contains "/" s.
Proof.
  change (Py.contains "/" (String c s))
    with (String.prefix "/" (String c s) || Py.contains "/" s).
  f_equal.
  change (String.prefix "/" (String c s))
    with (if ascii_dec "/" c then String.prefix EmptyString s else false).
  destruct (ascii_dec "/" c) as [<- | Hne].
  - rewrite prefix_empty. reflexivity.
  - assert (Hc : Ascii.eqb c "/" = false) by (apply Ascii.eqb_neq; congruence).
    rewrite Hc. reflexivity.
Qed.

Lemma contains_slash_app (a b : string) :
  Py.contains "/" (a +:+ b) = Py.contains "/" a || Py.contains "/" b.
Proof.
  induction a as [|x a IH]; [destruct b; reflexivity |].
  change (String x a +:+ b) with (String x (a +:+ b)).
  rewrite !contains_slash_cons, IH, orb_assoc. reflexivity.
Qed.

Lemma no_slash_prefix (f : string) :
  Py.contains "/" f = false -> String.prefix "/" f = false.
Proof.
  destruct f as [|c f]; [reflexivity |].
  change (Py.contains "/" (String c f))
    with (String.prefix "/" (String c f) || Py.contains "/" f).
  intros Hc. apply orb_false_iff in Hc. tauto.
Qed.

(** [os.path.join(d, f)] is [os.path.join(d, '')] followed by [f], for a
    name [f] that is not absolute. *)
Lemma path_join2_file (d f : string) :
  String.prefix "/" f = false ->
  Py.path_join2 d f = Py.path_join2 d EmptyString +:+ f.
Proof.
  intros Hf. unfold Py.path_join2. rewrite Hf.
  change (String.prefix "/" EmptyString) with false. cbv beta iota.
  destruct (String.eqb d EmptyString || Py.ends_with_slash d).
  - rewrite append_empty. reflexivity.
  - rewrite append_assoc. reflexivity.
Qed.

(** A file name without a slash, joined to a directory, lies in it. *)
Lemma inside_join (d f : string) :
  Py.contains "/" f = false -> Py.inside d (Py.path_join2 d f) = true.
Proof.
  intros Hf. unfold Py.inside.
  rewrite (path_join2_file d f (no_slash_prefix _ Hf)), after_prefix_app, Hf. reflexivity.
Qed.

Section Opening.
Context `{!Split.Collaborators}.

(** A file of the output directory itself can be opened. *)
Lemma can_open_directory (directory f ext : string) (es : list Split.effect) :
  Py.contains "/" (f +:+ ext) = false ->
  Split.can_open directory es (Py.path_join directory [f] +:+ ext) = true.
Proof.
  intros Hf. unfold Split.can_open.
  change (existsb (fun d => Py.inside d (Py.path_join directory [f] +:+ ext))
            (directory :: Split.made_dirs es))
    with (Py.inside directory (Py.path_join2 directory f +:+ ext)
          || existsb (fun d => Py.inside d (Py.path_join directory [f] +:+ ext))
               (Split.made_dirs es)).
  assert (Hin : Py.inside directory (Py.path_join2 directory f +:+ ext) = true).
  { pose proof Hf as Hf'. rewrite contains_slash_app in Hf'.
    apply orb_false_iff in Hf'. destruct Hf' as [Hf' _].
    rewrite (path_join2_file directory f (no_slash_prefix _ Hf')), append_assoc.
    rewrite <- (path_join2_file directory (f +:+ ext) (no_slash_prefix _ Hf)).
    apply inside_join. exact Hf. }
  rewrite Hin. reflexivity.
Qed.

End Opening.

(** ** Sections that cannot be written *)

(** Unfolds the statements of the driver down to functions of the state. *)
Ltac run_driver :=
  unfold mbind, Split.M_bind, Split.get, Split.lift, Split.read_db, Split.modify,
    Split.logging, Split.perform, Split.output, Split.open_file, Split.raise, mret,
    Split.M_ret;
  cbv beta iota zeta.

(** [lines[1]] of a list of at least two lines. *)
Lemma index_second {A} (l0 l1 : A) (lines : list A) :
  Py.index (l0 :: l1 :: lines) 1 = Ok l1.
Proof.
  unfold Py.index. change (1 <? 0) with false. cbv beta iota.
  replace (Z.of_nat (length (l0 :: l1 :: lines)) <=? 1) with false.
  - reflexivity.
  - symmetry. apply Z.leb_gt. simpl length. lia.
Qed.

Section Unwritten.
Context `{!Split.Collaborators}.
Variables (directory cmd : string) (defer_indexes defer_constraints : bool).
Variable filter_cre : string -> bool.

Local Abbreviation on_section :=
  (Split.on_section directory cmd defer_indexes defer_constraints filter_cre).

(** X3: as long as no header and no [schema] section has named a database,
    the sections of routines, events, views and, when they have the lines
    that name their table, the sections of tables raise [NameError] and
    leave the state, the files and the log as they are. *)
Theorem sections_before_database (lines : list string) (st : Split.state) :
  Split.db st = None ->
  (forall ty, In ty ["schema_routines"; "schema_events"; "view_temporary_definition";
                     "view_definition"] ->
     on_section (ty, lines) st = (st, Raise NameError))
  /\ ((2 <= length lines)%nat ->
      on_section ("table_definition", lines) st = (st, Raise NameError))
  /\ ((3 <= length lines)%nat ->
      on_section ("table_data", lines) st = (st, Raise NameError)).
Proof.
  intros Hdb. split; [| split].
  - intros ty [<- | [<- | [<- | [<- | []]]]].
    + change (Split.on_schema_routines directory cmd lines st = (st, Raise NameError)).
      unfold Split.on_schema_routines. run_driver. rewrite Hdb. reflexivity.
    + change (Split.on_schema_events directory cmd lines st = (st, Raise NameError)).
      unfold Split.on_schema_events. run_driver. rewrite Hdb. reflexivity.
    + change (Split.on_view directory cmd filter_cre lines st = (st, Raise NameError)).
      unfold Split.on_view. run_driver. rewrite Hdb. reflexivity.
    + change (Split.on_view directory cmd filter_cre lines st = (st, Raise NameError)).
      unfold Split.on_view. run_driver. rewrite Hdb. reflexivity.
  - intros Hlen.
    change (Split.on_table_definition directory cmd defer_indexes defer_constraints
              filter_cre lines st = (st, Raise NameError)).
    destruct lines as [|l0 [|l1 lines]]; simpl in Hlen; try lia.
    unfold Split.on_table_definition. run_driver.
    rewrite index_second. rewrite Hdb. reflexivity.
  - intros Hlen.
    change (Split.on_table_data directory cmd filter_cre lines st = (st, Raise NameError)).
    destruct lines as [|l0 [|l1 [|l2 lines]]]; simpl in Hlen; try lia.
    unfold Split.on_table_data. run_driver. rewrite Hdb. reflexivity.
Qed.

(** X4: a section written before any header was read opens its file, which
    empties it, and raises [TypeError] before anything is written; here for
    the replication section.  The run ends there. *)
Theorem replication_info_before_header (lines : list string) (st : Split.state)
    (ext : string) :
  Split.header st = None ->
  Split.cmd_to_ext cmd = Ok ext ->
  on_section ("replication_info", lines) st
  = (Split.add_effect
       (Split.Output (Py.path_join directory ["replication_info.sql"] +:+ ext) "wb" cmd []) st,
     Raise TypeError).
Proof.
  intros Hh Hext.
  change (on_section ("replication_info", lines))
    with (Split.on_replication_info directory cmd lines).
  assert (Hs : Py.contains "/" ("replication_info.sql" +:+ ext) = false).
  { pose proof (cmd_to_ext_six _ _ Hext) as Hin. simpl in Hin.
    destruct Hin as [<-|[<-|[<-|[<-|[<-|[<-|[]]]]]]]; reflexivity. }
  unfold Split.on_replication_info. run_driver. rewrite Hh, Hext. run_driver.
  rewrite (can_open_directory _ _ _ _ Hs). reflexivity.
Qed.

End Unwritten.

Lemma sections_before_database_witness :
  Split.db Split.initial_state = None
  /\ Split.on_section (H := Sample.splitter) "." "gzip -1" true false (fun _ => true)
       (Sample.view_definition "v") Split.initial_state
     = (Split.initial_state, Raise NameError).
Proof.
  split; [reflexivity |].
  apply (proj1 (sections_before_database (H := Sample.splitter) "." "gzip -1" true false
                  (fun _ => true) (snd (Sample.view_definition "v")) Split.initial_state
                  eq_refl)).
  simpl. tauto.
Defined.

Lemma replication_info_before_header_witness :
  Split.on_section (H := Sample.splitter) "." "gzip -1" true false (fun _ => true)
    ("replication_info", ["-- CHANGE MASTER TO MASTER_LOG_POS=4;"]) Split.initial_state
  = (Split.add_effect (Split.Output "./replication_info.sql.gz" "wb" "gzip -1" [])
       Split.initial_state,
     Raise TypeError).
Proof.
  exact (replication_info_before_header (H := Sample.splitter) "." "gzip -1" true false
           (fun _ => true) _ Split.initial_state ".gz" eq_refl eq_refl).
Defined.

(** ** Sections that the pattern rejects, and sections written as they are *)

Lemma same_files_refl st : Count.same_files st st.
Proof. repeat split. Qed.
Lemma same_files_trans a b c :
  Count.same_files a b -> Count.same_files b c -> Count.same_files a c.
Proof. unfold Count.same_files. intros (? & ? & ?) (? & ? & ?). repeat split; congruence. Qed.
Lemma same_files_log r st : Count.same_files st (Split.add_log r st).
Proof. repeat split. Qed.



(** Breaks a statement into the statements it is made of, taking the branch
    of a name that the pattern rejects. *)
Ltac same_files Hall :=
  repeat first
    [ progress cbv zeta
    | match goal with
      | |- Split.preserves _ (if _ ?n then _ else _) => rewrite (Hall n)
      | |- Split.preserves _ (if ?b then _ else _) => destruct b
      | |- Split.preserves _ (match ?x with _ => _ end) => destruct x
      | |- Split.preserves _ (_ ≫= _) => apply (preserves_bind _ same_files_trans); [| intros ?]
      | |- Split.preserves _ (mret _) => apply (preserves_ret _ same_files_refl)
      | |- Split.preserves _ (Split.raise _) => apply (preserves_raise _ same_files_refl)
      | |- Split.preserves _ (Split.lift _) => apply (preserves_lift _ same_files_refl)
      | |- Split.preserves _ (Split.get _) => apply (preserves_get _ same_files_refl)
      | |- Split.preserves _ Split.read_db => apply (preserves_read_db _ same_files_refl)
      | |- Split.preserves _ (Split.logging _) => apply (preserves_logging _ same_files_log)
      | |- Split.preserves _ (Split.modify _) =>
          apply preserves_modify; intros ?; repeat split
      end ].

Section Filtered.
Context `{!Split.Collaborators}.
Variables (directory cmd : string) (defer_indexes defer_constraints : bool).
Variable filter_cre : string -> bool.

Local Abbreviation on_section :=
  (Split.on_section directory cmd defer_indexes defer_constraints filter_cre).

(** X5: when the pattern matches no name, the sections of tables and of
    views open, empty and write no file and count no table and no view,
    whatever they hold. *)
Theorem rejected_sections_write_nothing (ty : string) (lines : list string)
    (st : Split.state) :
  (forall name, filter_cre name = false) ->
  In ty ["table_definition"; "table_data"; "view_temporary_definition"; "view_definition"] ->
  Split.effects (fst (on_section (ty, lines) st)) = Split.effects st
  /\ Split.table_count (fst (on_section (ty, lines) st)) = Split.table_count st
  /\ Split.view_count (fst (on_section (ty, lines) st)) = Split.view_count st.
Proof.
  intros Hall Hty.
  assert (Hp : Split.preserves Count.same_files (on_section (ty, lines))); [| apply Hp].
  destruct Hty as [<- | [<- | [<- | [<- | []]]]].
  - change (on_section ("table_definition", lines))
      with (Split.on_table_definition directory cmd defer_indexes defer_constraints
              filter_cre lines).
    unfold Split.on_table_definition.
    same_files Hall.
  - change (on_section ("table_data", lines))
      with (Split.on_table_data directory cmd filter_cre lines).
    unfold Split.on_table_data.
    same_files Hall.
  - change (on_section ("view_temporary_definition", lines))
      with (Split.on_view directory cmd filter_cre lines).
    unfold Split.on_view.
    apply (preserves_bind _ same_files_trans);
      [apply (preserves_read_db _ same_files_refl) | intros d].
    cbv zeta. rewrite Hall. apply (preserves_logging _ same_files_log).
  - change (on_section ("view_definition", lines))
      with (Split.on_view directory cmd filter_cre lines).
    unfold Split.on_view.
    apply (preserves_bind _ same_files_trans);
      [apply (preserves_read_db _ same_files_refl) | intros d].
    cbv zeta. rewrite Hall. apply (preserves_logging _ same_files_log).
Qed.

(** X6: a pending ALTER TABLE statement is lost when the data file that
    would carry it is rejected by the pattern: the section ends well, no file
    is written and nothing is pending afterwards. *)
Theorem rejected_table_data_drops_pending (c0 c1 c2 : string) (rest : list string)
    (st : Split.state) (d alter : string) :
  Split.db st = Some d ->
  Split.post_data st = Some alter -> alter <> EmptyString ->
  filter_cre (Py.path_join directory [d; Split.extract_identifier c1 +:+ ".data.sql"])
  = false ->
  exists st',
    on_section ("table_data", c0 :: c1 :: c2 :: rest) st = (st', Ok tt)
    /\ Split.effects st' = Split.effects st
    /\ Split.post_data st' = None.
Proof.
  intros Hdb Hp Hne Hf. apply truthy_true in Hne.
  change (on_section ("table_data", c0 :: c1 :: c2 :: rest))
    with (Split.on_table_data directory cmd filter_cre (c0 :: c1 :: c2 :: rest)).
  unfold Split.on_table_data. run_driver.
  rewrite Hdb. cbv beta iota zeta. rewrite Hp. unfold Py.truthy_opt. rewrite Hne.
  cbv beta iota. rewrite Hf.
  eexists. split; [reflexivity |]. split; reflexivity.
Qed.


End Filtered.

(** ** The file of the views *)

Lemma triple_bind {A B} (P : Split.state -> Prop) (m : Split.M A) (k : A -> Split.M B)
    (Q : A -> Split.state -> Prop) (Q' : B -> Split.state -> Prop)
    (E : Split.state -> Prop) :
  Count.triple P m Q E -> (forall a, Count.triple (Q a) (k a) Q' E) ->
  Count.triple P (m ≫= k) Q' E.
Proof.
  intros Hm Hk st HP. specialize (Hm st HP). rewrite bind_run.
  destruct (m st) as [st' [a|e]]; [exact (Hk a st' Hm) | exact Hm].
Qed.

Lemma triple_ret {A} (P : Split.state -> Prop) (a : A) (E : Split.state -> Prop) :
  Count.triple P (mret a) (fun _ => P) E.
Proof. intros st HP. exact HP. Qed.

Lemma same_views_refl st : Count.same_views st st.
Proof. repeat split. Qed.
Lemma same_views_trans a b c :
  Count.same_views a b -> Count.same_views b c -> Count.same_views a c.
Proof. unfold Count.same_views. intros (? & ? & ?) (? & ? & ?). repeat split; congruence. Qed.
Lemma same_views_log r st : Count.same_views st (Split.add_log r st).
Proof. repeat split. Qed.

Lemma truncated_files_app (es es' : list Split.effect) :
  Split.truncated_files (es ++ es') = Split.truncated_files es ++ Split.truncated_files es'.
Proof. apply flat_map_app. Qed.

Lemma opened_files_app (mode : string) (es es' : list Split.effect) :
  Split.opened_files mode (es ++ es')
  = Split.opened_files mode es ++ Split.opened_files mode es'.
Proof. apply flat_map_app. Qed.

Lemma same_views_makedirs p st : Count.same_views st (Split.add_effect (Split.Makedirs p) st).
Proof.
  unfold Count.same_views. simpl. rewrite truncated_files_app, opened_files_app. simpl.
  rewrite !app_nil_r. repeat split.
Qed.

Lemma same_views_output_wb file cmd items st :
  Count.same_views st (Split.add_effect (Split.Output file "wb" cmd items) st).
Proof.
  unfold Count.same_views. simpl. rewrite truncated_files_app, opened_files_app. simpl.
  rewrite !app_nil_r. repeat split.
Qed.

(** Writing a file from its start keeps the views as they are. *)
Lemma preserves_output_wb `{!Split.Collaborators} (directory cmd name : string)
    (items : list (option string)) :
  Split.preserves Count.same_views (Split.output directory cmd name items "wb").
Proof.
  unfold Split.output.
  apply (preserves_bind _ same_views_trans); [apply (preserves_lift _ same_views_refl) |].
  intros ext.
  apply (preserves_bind _ same_views_trans);
    [apply (preserves_open_file _ same_views_refl) | intros _].
  apply (preserves_bind _ same_views_trans).
  - apply preserves_modify. intros st. apply same_views_output_wb.
  - intros _. destruct (Split.all_strings items);
      [apply (preserves_ret _ same_views_refl) | apply (preserves_raise _ same_views_refl)].
Qed.

(** Breaks a statement that does not touch the views into the statements it
    is made of. *)
Ltac same_views :=
  repeat first
    [ progress cbv zeta
    | match goal with
      | |- Split.preserves _ (if ?b then _ else _) => destruct b
      | |- Split.preserves _ (match ?x with _ => _ end) => destruct x
      | |- Split.preserves _ (_ ≫= _) => apply (preserves_bind _ same_views_trans); [| intros ?]
      | |- Split.preserves _ (mret _) => apply (preserves_ret _ same_views_refl)
      | |- Split.preserves _ (Split.raise _) => apply (preserves_raise _ same_views_refl)
      | |- Split.preserves _ (Split.lift _) => apply (preserves_lift _ same_views_refl)
      | |- Split.preserves _ (Split.get _) => apply (preserves_get _ same_views_refl)
      | |- Split.preserves _ Split.read_db => apply (preserves_read_db _ same_views_refl)
      | |- Split.preserves _ (Split.logging _) => apply (preserves_logging _ same_views_log)
      | |- Split.preserves _ (Split.output _ _ _ _ "wb") => apply preserves_output_wb
      | |- Split.preserves _ (Split.perform (Split.Makedirs _)) =>
          apply preserves_modify; intros ?; apply same_views_makedirs
      | |- Split.preserves _ (Split.modify _) =>
          apply preserves_modify; intros ?; repeat split
      end ].

Lemma views_counted_same (st st' : Split.state) :
  Count.views_counted st -> Count.same_views st st' -> Count.views_counted st'.
Proof.
  unfold Count.views_counted, Count.same_views.
  intros (Hc & Hz & Hl) (Ht & Ho & Hv). rewrite Ht, Ho, Hv. auto.
Qed.

Lemma views_counted_once (st : Split.state) : Count.views_counted st -> Count.emptied_once st.
Proof. intros (_ & _ & Hl). exact Hl. Qed.

Lemma triple_preserves {A} (m : Split.M A) :
  Split.preserves Count.same_views m ->
  Count.triple Count.views_counted m (fun _ => Count.views_counted) Count.emptied_once.
Proof.
  intros Hm st HP. specialize (Hm st).
  destruct (m st) as [st' [a|e]]; simpl in Hm.
  - exact (views_counted_same _ _ HP Hm).
  - apply views_counted_once. exact (views_counted_same _ _ HP Hm).
Qed.

Section Views.
Context `{!Split.Collaborators}.
Variables (directory cmd : string) (defer_indexes defer_constraints : bool).
Variable filter_cre : string -> bool.

(** The sections that are not views do not touch the views. *)
Lemma other_sections_same_views (ty : string) (lines : list string) :
  ty <> "view_temporary_definition" -> ty <> "view_definition" ->
  Split.preserves Count.same_views
    (Split.on_section directory cmd defer_indexes defer_constraints filter_cre (ty, lines)).
Proof.
  intros H1 H2. unfold Split.on_section.
  apply String.eqb_neq in H1, H2. rewrite H1, H2. simpl orb.
  unfold Split.on_replication_info, Split.on_schema, Split.on_schema_routines,
    Split.on_schema_events, Split.on_header, Split.on_table_definition, Split.on_table_data.
  same_views.
Qed.

(** A view empties a file only when no view was counted yet, and is counted
    when its file was opened for appending. *)
Lemma on_view_views (lines : list string) :
  Count.triple Count.views_counted (Split.on_view directory cmd filter_cre lines)
    (fun _ => Count.views_counted) Count.emptied_once.
Proof.
  intros st (Hc & Hz & Hl).
  unfold Split.on_view. run_driver.
  destruct (Split.db st) as [d|];
    [| apply views_counted_once; repeat split; assumption].
  set (name := Py.path_join directory [d; "views.sql"]).
  destruct (filter_cre name); [| repeat split; assumption].
  rewrite all_strings_map, written_map.
  assert (Hab : forall es file items,
            Split.opened_files "ab" (es ++ [Split.Output file "ab" cmd items])
            = Split.opened_files "ab" es ++ [file]).
  { intros es file items. rewrite opened_files_app. reflexivity. }
  assert (Htr : forall es file items,
            Split.truncated_files (es ++ [Split.Output file "ab" cmd items])
            = Split.truncated_files es).
  { intros es file items. rewrite truncated_files_app. apply app_nil_r. }
  assert (Htt : forall es file,
            Split.truncated_files (es ++ [Split.Truncate file])
            = Split.truncated_files es ++ [file]).
  { intros es file. rewrite truncated_files_app. reflexivity. }
  assert (Hat : forall es file,
            Split.opened_files "ab" (es ++ [Split.Truncate file])
            = Split.opened_files "ab" es).
  { intros es file. rewrite opened_files_app. apply app_nil_r. }
  destruct (Split.view_count st =? 0) eqn:Hv.
  - apply Z.eqb_eq in Hv. specialize (Hz Hv).
    destruct (Split.can_open directory (Split.effects st) name); [| exact Hl].
    destruct (Split.cmd_to_ext cmd) as [ext|e]; repeat (progress run_driver);
      [| unfold Count.emptied_once; simpl; rewrite Htt, Hz; simpl; lia].
    destruct (Split.can_open directory _ (name +:+ ext));
      unfold Count.views_counted, Count.emptied_once; simpl.
    + rewrite Hab, Htr, Hat, Htt, Hz, length_app. simpl.
      split; [lia |]. split; [lia | lia].
    + rewrite Htt, Hz. simpl. lia.
  - apply Z.eqb_neq in Hv.
    destruct (Split.cmd_to_ext cmd) as [ext|e]; repeat (progress run_driver);
      [| exact Hl].
    destruct (Split.can_open directory _ (name +:+ ext));
      unfold Count.views_counted, Count.emptied_once; simpl.
    + rewrite Hab, Htr, length_app. simpl.
      split; [lia |]. split; [lia | exact Hl].
    + exact Hl.
Qed.

Lemma on_section_views (s : Split.section) :
  Count.triple Count.views_counted
    (Split.on_section directory cmd defer_indexes defer_constraints filter_cre s)
    (fun _ => Count.views_counted) Count.emptied_once.
Proof.
  destruct s as [ty lines].
  destruct (String.eqb_spec ty "view_temporary_definition") as [-> | H1].
  { exact (on_view_views lines). }
  destruct (String.eqb_spec ty "view_definition") as [-> | H2].
  { exact (on_view_views lines). }
  apply triple_preserves. apply other_sections_same_views; assumption.
Qed.

Lemma for_sections_views (sections : list Split.section) :
  Count.triple Count.views_counted
    (Split.for_sections directory cmd defer_indexes defer_constraints filter_cre sections)
    (fun _ => Count.views_counted) Count.emptied_once.
Proof.
  induction sections as [|s sections IH]; simpl.
  - apply triple_ret.
  - eapply triple_bind; [apply on_section_views | intros u; exact IH].
Qed.

End Views.

Section WholeRun.
Context `{!Split.Collaborators}.

Lemma fold_add_log_same_views (warnings : list Split.log_record) (st : Split.state) :
  Count.same_views st (fold_left (fun st r => Split.add_log r st) warnings st).
Proof.
  revert st. induction warnings as [|w ws IH]; intros st; simpl.
  - apply same_views_refl.
  - eapply same_views_trans; [apply (same_views_log w) | apply IH].
Qed.

Lemma views_counted_initial : Count.views_counted Split.initial_state.
Proof. repeat split. simpl. lia. Qed.

(** A run keeps count of the views, and empties at most one file even when
    it raises. *)
Lemma split_with_views (cfg : Split.config) (di dc : bool)
    (warnings : list Split.log_record) (sections : list Split.section) :
  match Split.split_with cfg di dc warnings sections with
  | (st, Ok _) => Count.views_counted st
  | (st, Raise _) => Count.emptied_once st
  end.
Proof.
  unfold Split.split_with.
  match goal with
  | |- match ?m Split.initial_state with _ => _ end =>
      assert (Hm : Count.triple Count.views_counted m (fun _ => Count.views_counted)
                     Count.emptied_once)
  end.
  { eapply triple_bind.
    { apply triple_preserves. apply preserves_modify. intros st.
      apply fold_add_log_same_views. }
    intros u1. eapply triple_bind; [apply triple_preserves; same_views |].
    intros u2. eapply triple_bind; [apply triple_preserves; same_views |].
    intros u3. eapply triple_bind; [apply triple_preserves; same_views |].
    intros f. eapply triple_bind; [apply triple_preserves; same_views |].
    intros u4. eapply triple_bind; [apply for_sections_views |].
    intros u5. apply triple_preserves. same_views. }
  exact (Hm Split.initial_state views_counted_initial).
Qed.

(** X9: in a whole run at most one file is emptied ahead of the views,
    however many databases have views and however the run ends. *)
Theorem at_most_one_file_emptied (cfg : Split.config) (sections : list Split.section) :
  (length (Split.truncated_files
             (Split.effects (fst (Split.split_mysqldump cfg sections)))) <= 1)%nat.
Proof.
  unfold Split.split_mysqldump.
  destruct (Split.target_flags (Split.target cfg)) as [[di dc] warnings].
  pose proof (split_with_views cfg di dc warnings sections) as Hv.
  destruct (Split.split_with cfg di dc warnings sections) as [st [z|e]]; simpl.
  - apply views_counted_once. exact Hv.
  - exact Hv.
Qed.

(** X10: when a run returns, the number of views of its last message is the
    number of times a file was opened for appending, and the file emptied,
    if there is one, was emptied before the first of them. *)
Theorem views_of_summary (cfg : Split.config) (sections : list Split.section) (z : Z) :
  snd (Split.split_mysqldump cfg sections) = Ok z ->
  let st := fst (Split.split_mysqldump cfg sections) in
  Split.view_count st = Z.of_nat (length (Split.opened_files "ab" (Split.effects st)))
  /\ (Split.opened_files "ab" (Split.effects st) = [] ->
      Split.truncated_files (Split.effects st) = []).
Proof.
  unfold Split.split_mysqldump.
  destruct (Split.target_flags (Split.target cfg)) as [[di dc] warnings].
  pose proof (split_with_views cfg di dc warnings sections) as Hv.
  destruct (Split.split_with cfg di dc warnings sections) as [st [z'|e]]; simpl;
    [| discriminate].
  intros _. destruct Hv as (Hc & Hz & _). split; [exact Hc |].
  intros Hnil. apply Hz. rewrite Hc, Hnil. reflexivity.
Qed.

End WholeRun.

Lemma views_of_summary_witness :
  snd (Split.split_mysqldump (H := Sample.splitter) Sample.cat_config
         Sample.dump_of_two_databases) = Ok 0
  /\ Split.view_count (fst (Split.split_mysqldump (H := Sample.splitter) Sample.cat_config
                              Sample.dump_of_two_databases))
     = Z.of_nat (length (Split.opened_files "ab"
                           (Split.effects
                              (fst (Split.split_mysqldump (H := Sample.splitter)
                                      Sample.cat_config Sample.dump_of_two_databases))))).
Proof.
  assert (Hr : snd (Split.split_mysqldump (H := Sample.splitter) Sample.cat_config
                      Sample.dump_of_two_databases) = Ok 0) by (vm_compute; reflexivity).
  split; [exact Hr |].
  exact (proj1 (views_of_summary (H := Sample.splitter) _ _ _ Hr)).
Defined.

(** ** The header of a dump *)



Lemma contains_eq (pat s : string) :
  Py.contains pat s
  = String.prefix pat s
    || match s with
       | EmptyString => false
       | String _ s' => Py.contains pat s'
       end.
Proof. destruct s; reflexivity. Qed.



Section Header.
Context `{!Split.Collaborators}.
Variables (directory cmd : string) (defer_indexes defer_constraints : bool).
Variable filter_cre : string -> bool.


End Header.

(** ** Versions, names and partition clauses *)

(** X12: the id of the version [major.minor.release] gives back the major
    number and the release, and the minor number up to its last digit only:
    the id of a version whose minor number is below ten gives the version
    back. *)
Theorem from_version_id_of_version (major minor release : Z) :
  0 <= minor < 100 -> 0 <= release < 100 ->
  Frm.from_version_id (major * 10000 + minor * 100 + release)
  = Frm.mkVersion major (minor mod 10) release.
Proof.
  intros Hm Hr. unfold Frm.from_version_id.
  set (v := major * 10000 + minor * 100 + release).
  assert (H1 : v / 10000 = major).
  { symmetry. apply (Z.div_unique v 10000 major (minor * 100 + release)); [lia |].
    subst v. ring. }
  assert (H3 : v mod 100 = release).
  { symmetry. apply (Z.mod_unique v 100 (major * 100 + minor) release); [lia |].
    subst v. ring. }
  assert (H2 : v mod 1000 / 100 = minor mod 10).
  { pose proof (Z.div_mod minor 10 ltac:(lia)) as Hd.
    pose proof (Z.mod_pos_bound minor 10 ltac:(lia)) as Hb.
    assert (Hv : v mod 1000 = (minor mod 10) * 100 + release).
    { symmetry.
      apply (Z.mod_unique v 1000 (major * 10 + minor / 10) ((minor mod 10) * 100 + release));
        [lia |].
      subst v. lia. }
    rewrite Hv. symmetry.
    apply (Z.div_unique _ 100 (minor mod 10) release); [lia | ring]. }
  rewrite H1, H2, H3. reflexivity.
Qed.

Lemma from_version_id_of_version_witness :
  Frm.from_version_id 50515 = Frm.mkVersion 5 5 15
  /\ Frm.from_version_id 51234 = Frm.mkVersion 5 2 34.
Proof.
  split.
  - exact (from_version_id_of_version 5 5 15 ltac:(lia) ltac:(lia)).
  - exact (from_version_id_of_version 5 12 34 ltac:(lia) ltac:(lia)).
Defined.

Lemma prefix_char (c : ascii) (a : ascii) (s rest : string) :
  String.prefix (String c rest) (String a s)
  = if Ascii.eqb c a then String.prefix rest s else false.
Proof.
  simpl. destruct (ascii_dec c a) as [-> | Hne].
  - rewrite Ascii.eqb_refl. reflexivity.
  - apply Ascii.eqb_neq in Hne. rewrite Hne. reflexivity.
Qed.

Lemma replace_from_eq (old new : string) (c : ascii) (s : string) :
  Py.replace_from old new O (String c s)
  = if String.prefix old (String c s)
    then new +:+ Py.replace_from old new (Nat.pred (String.length old)) s
    else String c (Py.replace_from old new O s).
Proof. reflexivity. Qed.

(** Doubled backticks read as one give the name back. *)
Lemma undouble_double (s : string) : Py.replace (Py.replace s "`" "``") "``" "`" = s.
Proof.
  unfold Py.replace. induction s as [|c s IH]; [reflexivity |].
  rewrite replace_from_eq, prefix_char, prefix_empty.
  destruct (Ascii.eqb "`" c) eqn:Hc.
  - apply Ascii.eqb_eq in Hc. subst c.
    change (Nat.pred (String.length "`")) with O.
    change ("``" +:+ Py.replace_from "`" "``" 0 s)
      with (String "`" (String "`" (Py.replace_from "`" "``" 0 s))).
    rewrite replace_from_eq.
    change (String.prefix "``" (String "`" (String "`" (Py.replace_from "`" "``" 0 s))))
      with (String.prefix EmptyString (Py.replace_from "`" "``" 0 s)).
    rewrite prefix_empty.
    change (Nat.pred (String.length "``")) with 1%nat.
    change (Py.replace_from "``" "`" 1 (String "`" (Py.replace_from "`" "``" 0 s)))
      with (Py.replace_from "``" "`" 0 (Py.replace_from "`" "``" 0 s)).
    rewrite IH. reflexivity.
  - rewrite replace_from_eq, prefix_char, Hc. rewrite IH. reflexivity.
Qed.

Lemma length_append (s t : string) :
  String.length (s +:+ t) = (String.length s + String.length t)%nat.
Proof.
  induction s as [|c s IH]; [reflexivity |].
  change (S (String.length (s +:+ t)) = S (String.length s + String.length t)).
  rewrite IH. reflexivity.
Qed.

(** A text that ends two texts alike can be taken off both. *)
Lemma append_cancel_r (x y z : string) : x +:+ z = y +:+ z -> x = y.
Proof.
  intros Hxy.
  assert (Hlen : String.length x = String.length y).
  { apply (f_equal String.length) in Hxy. rewrite !length_append in Hxy. lia. }
  revert y Hxy Hlen.
  induction x as [|cx x IHx]; intros [|cy y] Hxy Hlen; simpl in Hlen; try lia.
  - reflexivity.
  - change (String cx (x +:+ z) = String cy (y +:+ z)) in Hxy.
    injection Hxy as -> Hxy. f_equal. apply IHx; [exact Hxy | lia].
Qed.

(** X13: the name of a column is rendered between backticks with its own
    backticks doubled, so that reading doubled backticks as one gives the
    name back, and two names render alike only when they are the same. *)
Theorem quoted_name_injective (a b : string) :
  Py.replace (Py.replace a "`" "``") "``" "`" = a
  /\ (Render.quoted_name a = Render.quoted_name b -> a = b).
Proof.
  split; [apply undouble_double |].
  unfold Render.quoted_name. intros Heq.
  change ("`" +:+ Py.replace a "`" "``" +:+ "`")
    with (String "`" (Py.replace a "`" "``" +:+ "`")) in Heq.
  change ("`" +:+ Py.replace b "`" "``" +:+ "`")
    with (String "`" (Py.replace b "`" "``" +:+ "`")) in Heq.
  injection Heq as Heq.
  apply append_cancel_r in Heq.
  rewrite <- (undouble_double a), <- (undouble_double b), Heq. reflexivity.
Qed.

Lemma match_algorithm_none (s : string) :
  String.prefix "/*!" s = false -> Frm.match_algorithm s = None.
Proof.
  intros Hp. unfold Frm.match_algorithm, Frm.strip_prefix. rewrite Hp. reflexivity.
Qed.

Lemma patch_algorithm_eq (c : ascii) (s : string) :
  Frm.patch_algorithm O (String c s)
  = match Frm.match_algorithm (String c s) with
    | Some m => "*/ " +:+ m +:+ " /*!50100"
                +:+ Frm.patch_algorithm (Nat.pred (String.length m)) s
    | None => String c (Frm.patch_algorithm O s)
    end.
Proof. reflexivity. Qed.

(** X14: a partition clause that opens no versioned comment is rendered as
    it is, between the opening and the closing of the comment that guards
    it. *)
Theorem partitions_without_marker (o : Frm.TableOptions) (p : string) :
  Frm.partitions o = Some p -> p <> EmptyString ->
  Py.contains "/*!" p = false ->
  Frm.patch_algorithm O p = p
  /\ In (String "010" "/*!50100 " +:+ p +:+ " */") (Frm.attributes o).
Proof.
  intros Hp Hne Hc.
  assert (Hpatch : Frm.patch_algorithm O p = p).
  { clear Hp Hne. induction p as [|c p IH]; [reflexivity |].
    rewrite contains_eq in Hc. apply orb_false_iff in Hc. destruct Hc as [Hpre Hc].
    rewrite patch_algorithm_eq, (match_algorithm_none _ Hpre), (IH Hc). reflexivity. }
  split; [exact Hpatch |].
  unfold Frm.attributes. rewrite Hp. rewrite !in_app_iff. do 13 right.
  apply truthy_true in Hne. rewrite Hne, Hpatch. left. reflexivity.
Qed.

Lemma partitions_without_marker_witness :
  exists t,
    Frm.parse (H := Sample.decoder) "/var/lib/mysql/app/p.frm" Sample.p_frm = Ok t
    /\ In (String "010" "/*!50100 PARTITION BY HASH (id) */") (Frm.attributes (Frm.options t)).
Proof.
  eexists.
  match goal with
  | |- ?P /\ _ => assert (Hp : P) by (vm_compute; reflexivity)
  end.
  split; [exact Hp |].
  refine (proj2 (partitions_without_marker _ "PARTITION BY HASH (id)" _ _ _));
    [reflexivity | discriminate | reflexivity].
Defined.

(** ** Files that are not tables, and the columns of those that are *)

Section NotAFrm.
Context {Key : Type} `{!Frm.Collaborators Key}.

(** X15: a file of two bytes or more that does not start with the bytes
    0xfe 0x01 is refused with [IOError] (EINVAL), whatever follows and
    whatever the collaborators do. *)
Theorem parse_refuses_other_files (path : string) (c0 c1 : ascii) (rest : string) :
  String c0 (String c1 EmptyString) <> Frm.magic ->
  Frm.parse path (String c0 (String c1 rest)) = Raise IOError_EINVAL.
Proof.
  intros Hm. unfold Frm.parse, Frm.read_frm.
  assert (Hread : Frm.read (Frm.reader_of (String c0 (String c1 rest))) 2
                  = Ok (String c0 (String c1 EmptyString),
                        {| Frm.buf := String c0 (String c1 rest); Frm.pos := 2 |})).
  { unfold Frm.read, Frm.read_at, Frm.in_buffer, Frm.reader_of. cbn [Frm.pos Frm.buf].
    replace (0 + 2 <=? Py.len (String c0 (String c1 rest))) with true.
    - simpl. destruct rest; reflexivity.
    - symmetry. apply Z.leb_le. unfold Py.len. simpl String.length. lia. }
  rewrite Hread. cbn [mbind result_bind].
  apply String.eqb_neq in Hm. rewrite Hm. reflexivity.
Qed.

End NotAFrm.

Lemma parse_refuses_other_files_witness :
  Frm.parse (H := Sample.decoder) "/var/lib/mysql/app/t.MYD" "MZ plain data"
  = Raise IOError_EINVAL.
Proof.
  exact (parse_refuses_other_files (H := Sample.decoder) _ "M" "Z" " plain data"
           ltac:(discriminate)).
Defined.

(** The pieces of a text cut at a character are one more than the
    occurrences of the character. *)
Lemma split_length (sep : ascii) (s : string) :
  length (Py.split sep s) = S (Count.occurrences sep s).
Proof.
  induction s as [|c s IH]; [reflexivity |].
  simpl. destruct (Ascii.eqb c sep); simpl.
  - rewrite IH. reflexivity.
  - destruct (Py.split sep s) as [|p ps] eqn:Hs; simpl in *; [discriminate IH | exact IH].
Qed.

Lemma substring_length (s : string) (off n : nat) :
  (off + n <= String.length s)%nat -> String.length (substring off n s) = n.
Proof.
  revert off n. induction s as [|c s IH]; intros off n Hl; simpl in Hl.
  - assert (off = O) by lia. assert (n = O) by lia. subst. reflexivity.
  - destruct off as [|off]; simpl.
    + destruct n as [|n]; [reflexivity |]. simpl. f_equal. apply IH. simpl. lia.
    + apply IH. lia.
Qed.

(** A read gives as many bytes as were asked for. *)
Lemma read_at_length (r : Frm.ByteReader) (n off : Z) (b : string) :
  Frm.read_at r n off = Ok b -> Py.len b = n.
Proof.
  unfold Frm.read_at, Frm.in_buffer. destruct (_ && _) eqn:Hin; [| discriminate].
  intros [= <-].
  apply andb_true_iff in Hin. destruct Hin as [Hin Hlen].
  apply andb_true_iff in Hin. destruct Hin as [Hoff Hn].
  apply Z.leb_le in Hoff, Hn, Hlen. unfold Py.len in *.
  rewrite substring_length; lia.
Qed.

Lemma read_inv (r r' : Frm.ByteReader) (n : Z) (b : string) :
  Frm.read r n = Ok (b, r') ->
  Py.len b = n /\ Frm.buf r' = Frm.buf r /\ Frm.pos r' = Frm.pos r + n.
Proof.
  unfold Frm.read. intros Hr. bind_inv Hr. injection Hr as <- <-.
  split; [eapply read_at_length; eassumption | split; reflexivity].
Qed.

Lemma uint_at_bound (width : Z) (r : Frm.ByteReader) (off v : Z) :
  Frm.uint_at width r off Frm.SEEK_CUR = Ok v ->
  Frm.pos r + off + width <= Py.len (Frm.buf r).
Proof.
  unfold Frm.uint_at, Frm.read_at, Frm.in_buffer.
  destruct (_ && _) eqn:Hin; [| discriminate]. intros _.
  apply andb_true_iff in Hin. destruct Hin as [_ Hlen]. apply Z.leb_le in Hlen. exact Hlen.
Qed.

Lemma skip_inv (r r' : Frm.ByteReader) (n : Z) :
  Frm.skip r n = Ok r' -> Frm.buf r' = Frm.buf r /\ Frm.pos r' = Frm.pos r + n.
Proof.
  unfold Frm.skip, Frm.seek. destruct (Frm.in_buffer _ _ _); [| discriminate].
  intros [= <-]. split; reflexivity.
Qed.

(** The metadata of the file are as long as the header says. *)
Lemma read_column_data_metadata (data data' : Frm.ByteReader) (pc : Frm.PackedColumnData)
    (mo cc nf nl ll cl dl do : Z) :
  Frm.read_column_data data mo cc nf nl ll cl dl do = Ok (pc, data') ->
  Py.len (Frm.pc_metadata pc) = 17 * cc.
Proof.
  unfold Frm.read_column_data, Frm.with_offset. intros Hr.
  apply bind_ok in Hr. destruct Hr as (r1 & Hseek & Hr).
  apply bind_ok in Hr. destruct Hr as ([pc' r2] & Hbody & Hr).
  injection Hr as <- _.
  apply bind_ok in Hbody. destruct Hbody as ([m d1] & Hm & Hbody).
  apply read_inv in Hm. destruct Hm as (Hm & _).
  bind_inv Hbody. injection Hbody as <- _. exact Hm.
Qed.

Lemma read_frm_metadata (path content : string) (data : Frm.ByteReader) (fo : Z)
    (packed : Frm.PackedFrmData) :
  Frm.read_frm path content = Ok (data, fo, packed) ->
  Py.len (Frm.pc_metadata (Frm.pf_columns packed)) = 17 * Frm.count (Frm.pf_columns packed).
Proof.
  unfold Frm.read_frm. intros Hr.
  apply bind_ok in Hr. destruct Hr as ([m d0] & Hm & Hr).
  destruct (negb (m =? Frm.magic)%string); [discriminate Hr |].
  bind_inv Hr. injection Hr as <- <- <-.
  match goal with
  | E : Frm.read_column_data _ _ _ _ _ _ _ _ _ = Ok _ |- _ =>
      pose proof (read_column_data_metadata _ _ _ _ _ _ _ _ _ _ _ E) as Hlen;
      apply read_column_data_reader in E; destruct E as [_ Hcount]
  end.
  simpl. rewrite Hcount. exact Hlen.
Qed.

Section ColumnsMore.
Context {Key : Type} `{!Frm.Collaborators Key}.

(** What one turn of the loop reads and leaves. *)
Lemma unpack_column_inv (labels : list (list string)) (st st' : Frm.loop_state Key)
    (fieldnr : Z) (name : string) (col : Frm.Column) :
  Frm.unpack_column labels st fieldnr name = Ok (col, st') ->
  Frm.col_name col = name
  /\ Frm.col_attributes col = []
  /\ Frm.pos (Frm.ls_metadata st) + 17 <= Py.len (Frm.buf (Frm.ls_metadata st))
  /\ Frm.buf (Frm.ls_metadata st') = Frm.buf (Frm.ls_metadata st)
  /\ Frm.pos (Frm.ls_metadata st') = Frm.pos (Frm.ls_metadata st) + 17
  /\ (exists t, Frm.uint8_at (Frm.ls_metadata st) 13 Frm.SEEK_CUR = Ok t
                /\ Frm.MySQLType t = Ok (Frm.col_type_code col))
  /\ (String.eqb (Frm.name (Frm.col_type_code col)) "GEOMETRY" = true ->
      Frm.charsets_lookup 63 = Ok (Frm.col_charset col))
  /\ (String.eqb (Frm.name (Frm.col_type_code col)) "GEOMETRY" = false ->
      exists hi lo,
        Frm.uint8_at (Frm.ls_metadata st) 11 Frm.SEEK_CUR = Ok hi
        /\ Frm.uint8_at (Frm.ls_metadata st) 14 Frm.SEEK_CUR = Ok lo
        /\ Frm.charsets_lookup (Z.shiftl hi 8 + lo) = Ok (Frm.col_charset col)).
Proof.
  unfold Frm.unpack_column. intros Hu.
  apply bind_ok in Hu. destruct Hu as (len & Hlen & Hu).
  apply bind_ok in Hu. destruct Hu as (fl & Hfl & Hu).
  apply bind_ok in Hu. destruct Hu as (flags & Hflags & Hu).
  apply bind_ok in Hu. destruct Hu as (u & Hu8 & Hu).
  apply bind_ok in Hu. destruct Hu as (unireg & Hunireg & Hu).
  apply bind_ok in Hu. destruct Hu as (t & Ht & Hu).
  apply bind_ok in Hu. destruct Hu as (type_code & Htype & Hu).
  apply bind_ok in Hu. destruct Hu as (col_labels & Hlabels & Hu).
  apply bind_ok in Hu. destruct Hu as (d & Hd & Hu).
  apply bind_ok in Hu. destruct Hu as (comment_length & Hcl & Hu).
  apply bind_ok in Hu. destruct Hu as ([charset_id subtype] & Hcs & Hu).
  apply bind_ok in Hu. destruct Hu as (metadata' & Hskip & Hu).
  apply bind_ok in Hu. destruct Hu as (charset & Hlook & Hu).
  apply bind_ok in Hu. destruct Hu as ([[default context'] defaults'] & Hdef & Hu).
  apply bind_ok in Hu. destruct Hu as ([comment comments'] & Hcom & Hu).
  apply bind_ok in Hu. destruct Hu as (type_name & Hfmt & Hu).
  injection Hu as <- <-. cbn [Frm.col_name Frm.col_attributes Frm.col_type_code
    Frm.col_charset Frm.ls_metadata].
  apply uint_at_bound in Hcl. apply skip_inv in Hskip. destruct Hskip as [Hbuf Hpos].
  split; [reflexivity |]. split; [reflexivity |]. split; [lia |].
  split; [exact Hbuf |]. split; [exact Hpos |].
  split; [eauto |].
  split.
  - intros Hg. rewrite Hg in Hcs. simpl in Hcs.
    bind_inv Hcs. injection Hcs as <- _. exact Hlook.
  - intros Hg. rewrite Hg in Hcs. simpl in Hcs.
    apply bind_ok in Hcs. destruct Hcs as (hi & Hhi & Hcs).
    apply bind_ok in Hcs. destruct Hcs as (lo & Hlo & Hcs).
    injection Hcs as <- _. eauto.
Qed.

(** The columns of a loop that ends well: their names, and the room they
    take in the metadata. *)
Lemma unpack_columns_loop_inv (labels : list (list string)) (names : list string) :
  forall (st : Frm.loop_state Key) (fieldnr : Z) (cols : list Frm.Column),
    Frm.unpack_columns_loop labels st fieldnr names = Ok cols ->
    Frm.pos (Frm.ls_metadata st) <= Py.len (Frm.buf (Frm.ls_metadata st)) ->
    map Frm.col_name cols = names
    /\ Forall (fun c => Frm.col_attributes c = []) cols
    /\ Frm.pos (Frm.ls_metadata st) + 17 * Z.of_nat (length names)
       <= Py.len (Frm.buf (Frm.ls_metadata st)).
Proof.
  induction names as [|n names IH]; intros st fieldnr cols Hl Hpos; simpl in Hl.
  - injection Hl as <-. split; [reflexivity |]. split; [constructor | simpl; lia].
  - apply bind_ok in Hl. destruct Hl as ([col st'] & Hc & Hl).
    apply bind_ok in Hl. destruct Hl as (cols' & Hl' & Hl).
    injection Hl as <-.
    destruct (unpack_column_inv _ _ _ _ _ _ Hc) as (Hn & Ha & Hroom & Hbuf & Hp & _).
    destruct (IH _ _ _ Hl') as (Hnames & Hattr & Hrest).
    { rewrite Hbuf, Hp. exact Hroom. }
    split; [simpl; rewrite Hn, Hnames; reflexivity |].
    split; [constructor; assumption |].
    rewrite Hbuf, Hp in Hrest. simpl length. lia.
Qed.

Lemma unpack_columns_inv (pc : Frm.PackedColumnData) (table : Frm.Table Key)
    (cols : list Frm.Column) :
  Frm.unpack_columns pc table = Ok cols ->
  exists names,
    Frm.unpack_column_names (Frm.pc_names pc) = Ok names
    /\ map Frm.col_name cols = names
    /\ Forall (fun c => Frm.col_attributes c = []) cols
    /\ 17 * Z.of_nat (length names) <= Py.len (Frm.pc_metadata pc).
Proof.
  unfold Frm.unpack_columns. intros Hu.
  apply bind_ok in Hu. destruct Hu as (names & Hn & Hu).
  apply bind_ok in Hu. destruct Hu as (labels & Hlab & Hu).
  apply bind_ok in Hu. destruct Hu as ([nulls defaults] & Hnull & Hu).
  exists names. split; [exact Hn |].
  destruct (unpack_columns_loop_inv _ _ _ _ _ Hu) as (H1 & H2 & H3).
  { simpl. unfold Py.len. lia. }
  simpl in H3. auto.
Qed.

(** X16: the columns of the table that [parse] returns are the names of the
    names section, in their order, and none has attributes. *)
Theorem parse_columns_named (path content : string) (t : Frm.Table Key)
    (data : Frm.ByteReader) (fo : Z) (packed : Frm.PackedFrmData) :
  Frm.parse path content = Ok t ->
  Frm.read_frm path content = Ok (data, fo, packed) ->
  Frm.unpack_column_names (Frm.pc_names (Frm.pf_columns packed))
  = Ok (map Frm.col_name (Frm.columns t))
  /\ Forall (fun c => Frm.col_attributes c = []) (Frm.columns t).
Proof.
  intros Hp Hr.
  destruct (parse_inv _ _ _ Hp)
    as (data' & fo' & packed' & t0 & r0 & ix & r1 & tc & r2 & Hr' & _ & Hu & _).
  rewrite Hr in Hr'. injection Hr' as <- <- <-.
  destruct (unpack_columns_inv _ _ _ Hu) as (names & Hn & Hnames & Hattr & _).
  rewrite Hnames. split; assumption.
Qed.

(** X17: [parse] never returns more columns than the header of the file
    counts: the metadata hold 17 bytes for each column counted, and every
    column returned has read its 17 bytes. *)
Theorem parse_columns_bounded (path content : string) (t : Frm.Table Key)
    (data : Frm.ByteReader) (fo : Z) (packed : Frm.PackedFrmData) :
  Frm.parse path content = Ok t ->
  Frm.read_frm path content = Ok (data, fo, packed) ->
  Z.of_nat (length (Frm.columns t)) <= Frm.count (Frm.pf_columns packed).
Proof.
  intros Hp Hr.
  destruct (parse_inv _ _ _ Hp)
    as (data' & fo' & packed' & t0 & r0 & ix & r1 & tc & r2 & Hr' & _ & Hu & _).
  rewrite Hr in Hr'. injection Hr' as <- <- <-.
  destruct (unpack_columns_inv _ _ _ Hu) as (names & _ & Hnames & _ & Hroom).
  rewrite (read_frm_metadata _ _ _ _ _ Hr) in Hroom.
  rewrite <- Hnames, length_map in Hroom. lia.
Qed.

(** X18: the number of columns that [parse] returns is one more than the
    number of bytes 0xff between the first byte and the last two bytes of
    the names section; the count of the header is not looked at. *)
Theorem parse_columns_by_separators (path content : string) (t : Frm.Table Key)
    (data : Frm.ByteReader) (fo : Z) (packed : Frm.PackedFrmData) :
  Frm.parse path content = Ok t ->
  Frm.read_frm path content = Ok (data, fo, packed) ->
  length (Frm.columns t)
  = S (Count.occurrences "255" (Py.slice (Frm.pc_names (Frm.pf_columns packed)) 1 (-2))).
Proof.
  intros Hp Hr.
  destruct (parse_inv _ _ _ Hp)
    as (data' & fo' & packed' & t0 & r0 & ix & r1 & tc & r2 & Hr' & _ & Hu & _).
  rewrite Hr in Hr'. injection Hr' as <- <- <-.
  destruct (unpack_columns_length _ _ _ Hu) as (names & Hn & Hlen).
  unfold Frm.unpack_column_names in Hn. apply traverse_length in Hn.
  rewrite Hlen, Hn. apply split_length.
Qed.

End ColumnsMore.

(** ** The table that [parse] returns *)

Section TableOfParse.
Context {Key : Type} `{!Frm.Collaborators Key}.

Lemma from_data_charset (data : Frm.ByteReader) (context : Frm.PackedFrmData)
    (t : Frm.Table Key) (r : Frm.ByteReader) :
  Frm.from_data data context = Ok (t, r) ->
  Frm.charset (Frm.options t) = Some (Frm.table_charset t).
Proof.
  unfold Frm.from_data. intros Hd. bind_inv Hd. injection Hd as <- _. reflexivity.
Qed.

(** [parse] changes nothing but the comment in the options that
    [from_data] has set. *)
Lemma parse_options (path content : string) (t : Frm.Table Key) :
  Frm.parse path content = Ok t ->
  exists data packed t0 r0,
    Frm.from_data data packed = Ok (t0, r0)
    /\ Frm.table_charset t = Frm.table_charset t0
    /\ Frm.charset (Frm.options t) = Frm.charset (Frm.options t0).
Proof.
  unfold Frm.parse. intros Hp.
  apply bind_ok in Hp. destruct Hp as ([[data fo] packed] & Hr & Hp).
  apply bind_ok in Hp. destruct Hp as ([t0 r0] & Hd & Hp).
  apply bind_ok in Hp. destruct Hp as (cols & Hc & Hp).
  apply bind_ok in Hp. destruct Hp as ([indexes r1] & Hk & Hp).
  apply bind_ok in Hp. destruct Hp as ([table_comment r2] & Ht & Hp).
  apply bind_ok in Hp. destruct Hp as (t1 & Hs & Hp).
  injection Hp as <-. cbn [Frm.table_charset Frm.options].
  exists data, packed, t0, r0. split; [exact Hd |].
  destruct (Py.truthy table_comment).
  - apply bind_ok in Hs. destruct Hs as (c & Hdec & Hs). injection Hs as <-.
    split; reflexivity.
  - injection Hs as <-. split; reflexivity.
Qed.

(** X19: the option tail of every table that [parse] returns names the
    character set of the table, and its collation too when that is not the
    default one of the set. *)
Theorem parse_renders_charset (path content : string) (t : Frm.Table Key) :
  Frm.parse path content = Ok t ->
  Frm.charset (Frm.options t) = Some (Frm.table_charset t)
  /\ In ("DEFAULT CHARSET=" +:+ Frm.charset_name (Frm.table_charset t))
        (Frm.attributes (Frm.options t))
  /\ (Frm.is_default (Frm.table_charset t) = false ->
      In ("COLLATE=" +:+ Frm.collation (Frm.table_charset t))
         (Frm.attributes (Frm.options t))).
Proof.
  intros Hp.
  destruct (parse_options _ _ _ Hp) as (data & packed & t0 & r0 & Hd & Hcs & Ho).
  apply from_data_charset in Hd.
  assert (Hc : Frm.charset (Frm.options t) = Some (Frm.table_charset t)) by congruence.
  split; [exact Hc |].
  unfold Frm.attributes. rewrite Hc.
  split.
  - apply in_or_app; right. apply in_or_app; right. apply in_or_app; left.
    left. reflexivity.
  - intros Hnd. rewrite Hnd.
    apply in_or_app; right. apply in_or_app; right. apply in_or_app; left.
    right. left. reflexivity.
Qed.

(** What holds of the column of every turn holds of every column. *)
Lemma unpack_columns_loop_forall (P : Frm.Column -> Prop) (labels : list (list string))
    (names : list string) :
  (forall st fieldnr name col st',
      Frm.unpack_column labels st fieldnr name = Ok (col, st') -> P col) ->
  forall (st : Frm.loop_state Key) (fieldnr : Z) (cols : list Frm.Column),
    Frm.unpack_columns_loop labels st fieldnr names = Ok cols -> Forall P cols.
Proof.
  intros HP. induction names as [|n names IH]; intros st fieldnr cols Hl; simpl in Hl.
  - injection Hl as <-. constructor.
  - apply bind_ok in Hl. destruct Hl as ([col st'] & Hc & Hl).
    apply bind_ok in Hl. destruct Hl as (cols' & Hl' & Hl).
    injection Hl as <-. constructor; [eapply HP; eassumption | eapply IH; eassumption].
Qed.

(** X20: in every table that [parse] returns, a column of the type GEOMETRY
    has the character set of id 63, whatever the bytes of its record say. *)
Theorem geometry_columns_binary (path content : string) (t : Frm.Table Key) :
  Frm.parse path content = Ok t ->
  Forall (fun c => Frm.name (Frm.col_type_code c) = "GEOMETRY" ->
                   Frm.charsets_lookup 63 = Ok (Frm.col_charset c))
         (Frm.columns t).
Proof.
  intros Hp.
  destruct (parse_inv _ _ _ Hp)
    as (data & fo & packed & t0 & r0 & ix & r1 & tc & r2 & _ & _ & Hu & _).
  unfold Frm.unpack_columns in Hu.
  apply bind_ok in Hu. destruct Hu as (names & Hn & Hu).
  apply bind_ok in Hu. destruct Hu as (labels & Hlab & Hu).
  apply bind_ok in Hu. destruct Hu as ([nulls defaults] & Hnull & Hu).
  eapply unpack_columns_loop_forall; [| exact Hu].
  intros st fieldnr name col st' Hc Hg.
  destruct (unpack_column_inv _ _ _ _ _ _ Hc) as (_ & _ & _ & _ & _ & _ & Hgeo & _).
  apply Hgeo. apply String.eqb_eq. exact Hg.
Qed.

End TableOfParse.

Lemma parse_columns_named_witness :
  exists t data fo packed,
    Frm.parse (H := Sample.decoder) "/var/lib/mysql/app/t.frm" Sample.t_frm = Ok t
    /\ Frm.read_frm "/var/lib/mysql/app/t.frm" Sample.t_frm = Ok (data, fo, packed)
    /\ map Frm.col_name (Frm.columns t) = ["id"; "kind"]
    /\ Frm.unpack_column_names (H := Sample.decoder) (Frm.pc_names (Frm.pf_columns packed))
       = Ok (map Frm.col_name (Frm.columns t))
    /\ Forall (fun c => Frm.col_attributes c = []) (Frm.columns t).
Proof.
  eexists _, _, _, _.
  match goal with
  | |- ?P /\ ?Q /\ ?R /\ _ =>
      assert (Hp : P) by (vm_compute; reflexivity);
      assert (Hr : Q) by (vm_compute; reflexivity);
      assert (Hn : R) by (vm_compute; reflexivity)
  end.
  split; [exact Hp |]. split; [exact Hr |]. split; [exact Hn |].
  exact (parse_columns_named (H := Sample.decoder) _ _ _ _ _ _ Hp Hr).
Defined.

Lemma parse_columns_bounded_witness :
  exists t data fo packed,
    Frm.parse (H := Sample.decoder) "/var/lib/mysql/app/wide.frm" Stage.wide_frm = Ok t
    /\ Frm.read_frm "/var/lib/mysql/app/wide.frm" Stage.wide_frm = Ok (data, fo, packed)
    /\ Frm.count (Frm.pf_columns packed) = 3
    /\ Z.of_nat (length (Frm.columns t)) <= 3.
Proof.
  eexists _, _, _, _.
  match goal with
  | |- ?P /\ ?Q /\ ?R /\ _ =>
      assert (Hp : P) by (vm_compute; reflexivity);
      assert (Hr : Q) by (vm_compute; reflexivity);
      assert (Hc : R) by (vm_compute; reflexivity)
  end.
  split; [exact Hp |]. split; [exact Hr |]. split; [exact Hc |].
  rewrite <- Hc.
  exact (parse_columns_bounded (H := Sample.decoder) _ _ _ _ _ _ Hp Hr).
Defined.

Lemma parse_columns_by_separators_witness :
  exists t data fo packed,
    Frm.parse (H := Sample.decoder) "/var/lib/mysql/app/wide.frm" Stage.wide_frm = Ok t
    /\ Frm.read_frm "/var/lib/mysql/app/wide.frm" Stage.wide_frm = Ok (data, fo, packed)
    /\ Count.occurrences "255" (Py.slice (Frm.pc_names (Frm.pf_columns packed)) 1 (-2)) = 1%nat
    /\ length (Frm.columns t) = 2%nat.
Proof.
  eexists _, _, _, _.
  match goal with
  | |- ?P /\ ?Q /\ ?R /\ _ =>
      assert (Hp : P) by (vm_compute; reflexivity);
      assert (Hr : Q) by (vm_compute; reflexivity);
      assert (Hc : R) by (vm_compute; reflexivity)
  end.
  split; [exact Hp |]. split; [exact Hr |]. split; [exact Hc |].
  rewrite (parse_columns_by_separators (H := Sample.decoder) _ _ _ _ _ _ Hp Hr), Hc.
  reflexivity.
Defined.

Lemma parse_renders_charset_witness :
  exists t,
    Frm.parse (H := Sample.decoder) "/var/lib/mysql/app/t.frm" Sample.t_frm = Ok t
    /\ In "DEFAULT CHARSET=latin1" (Frm.attributes (Frm.options t)).
Proof.
  eexists.
  match goal with
  | |- ?P /\ _ => assert (Hp : P) by (vm_compute; reflexivity)
  end.
  split; [exact Hp |].
  exact (proj1 (proj2 (parse_renders_charset (H := Sample.decoder) _ _ _ Hp))).
Defined.

Lemma geometry_columns_binary_witness :
  exists t,
    Frm.parse (H := Sample.decoder) "/var/lib/mysql/app/geo.frm" Stage.geo_frm = Ok t
    /\ map (fun c => Frm.name (Frm.col_type_code c)) (Frm.columns t) = ["LONG"; "GEOMETRY"]
    /\ Forall (fun c => Frm.name (Frm.col_type_code c) = "GEOMETRY" ->
                        Sample.charsets_lookup 63 = Ok (Frm.col_charset c))
              (Frm.columns t).
Proof.
  eexists.
  match goal with
  | |- ?P /\ ?Q /\ _ =>
      assert (Hp : P) by (vm_compute; reflexivity);
      assert (Hq : Q) by (vm_compute; reflexivity)
  end.
  split; [exact Hp |]. split; [exact Hq |].
  exact (geometry_columns_binary (H := Sample.decoder) _ _ _ Hp).
Defined.

(** The sections of tables after the header of the dump of [app], under a
    pattern that matches no name. *)
Lemma rejected_sections_write_nothing_witness :
  Split.effects
    (fst (Split.on_section (H := Sample.splitter) "." "gzip -1" true false (fun _ => false)
            (Sample.table_data "t1") Stage.after_definition))
  = Split.effects Stage.after_definition.
Proof.
  refine (proj1 (rejected_sections_write_nothing (H := Sample.splitter) "." "gzip -1" true
                   false (fun _ => false) "table_data" _ Stage.after_definition _ _)).
  - intros name. reflexivity.
  - simpl. tauto.
Defined.

Lemma rejected_table_data_drops_pending_witness :
  Stage.pending <> EmptyString
  /\ exists st',
       Split.on_section (H := Sample.splitter) "." "gzip -1" true false (fun _ => false)
         (Sample.table_data "t1") Stage.after_definition = (st', Ok tt)
       /\ Split.effects st' = Split.effects Stage.after_definition
       /\ Split.post_data st' = None.
Proof.
  assert (Hne : Stage.pending <> EmptyString) by (vm_compute; discriminate).
  split; [exact Hne |].
  pose (l := snd (Sample.table_data "t1")).
  refine (rejected_table_data_drops_pending (H := Sample.splitter) "." "gzip -1" true false
            (fun _ => false) (nth 0 l EmptyString) (nth 1 l EmptyString)
            (nth 2 l EmptyString) (skipn 3 l) Stage.after_definition "app" Stage.pending
            _ _ Hne _).
  - vm_compute; reflexivity.
  - vm_compute; reflexivity.
  - reflexivity.
Defined.

